(** * Crestron Home REST scripts: a shallow embedding

    The repository ships two Node.js scripts that talk to a Crestron Home
    hub: [src/get-devices.js] (login, then one read) and a second, larger
    script (login, then a fan-out of seven requests joined by
    [Promise.all]).  This file embeds both scripts as state-passing
    functions over an explicit environment (the transport behind
    [https.request], the clock, the completion order of a batch and the
    disk) and proves the properties the specification states about them.

    Console output is not part of the model: [console.log] and
    [console.error] never fail on the values the scripts print and leave no
    trace that any of the properties below talks about.

    The scripts set no timeout and listen to no event but the ['error'] of
    a request and the ['end'] of a response, so a request may never
    settle; the promise that waits for it is then [Pending] for ever, and
    so is every [async] function that awaits it. *)

From Stdlib Require Import List String Ascii ZArith Bool Lia.
From Stdlib Require Import Floats.SpecFloat.
Import ListNotations.
Local Open Scope string_scope.
Set Warnings "-register-all".

(** ** JavaScript values produced by [JSON.parse] *)

Module Js.

(** A parsed JSON document.  Numbers are IEEE doubles, as in JavaScript;
    an object is the list of its own properties. *)
Inductive JValue : Type :=
| JNull
| JBool (b : bool)
| JNum (x : spec_float)
| JStr (s : string)
| JArr (items : list JValue)
| JObj (props : list (string * JValue)).

(** An [Error] object: its constructor name and its [message]. *)
Record JsError : Type := mkError { name : string; message : string }.

Definition Error (msg : string) : JsError := mkError "Error" msg.
Definition TypeError (msg : string) : JsError := mkError "TypeError" msg.

(** The result of evaluating an expression or of awaiting a promise:
    a value, a thrown error (a rejection), or, for a promise that never
    settles, nothing at all. *)
Inductive Result (A : Type) : Type :=
| Ok (a : A)
| Throw (e : JsError)
| Pending.
Arguments Ok {A} a.
Arguments Throw {A} e.
Arguments Pending {A}.

(** Truthiness ([if (v)], [a && b]). *)
Definition truthy (v : JValue) : bool :=
  match v with
  | JNull => false
  | JBool b => b
  | JNum (S754_zero _) => false
  | JNum S754_nan => false
  | JNum _ => true
  | JStr s => negb (String.eqb s "")
  | JArr _ => true
  | JObj _ => true
  end.

Fixpoint lookup (key : string) (props : list (string * JValue)) : option JValue :=
  match props with
  | [] => None
  | (k, v) :: rest => if String.eqb k key then Some v else lookup key rest
  end.

(** Property read [v.key] for a key that no prototype defines (the scripts
    read [authkey], [devices], [rooms] and [scenes] only): an own property
    of an object, [undefined] (here [None]) on any other non-null value,
    and a [TypeError] on [null]. *)
Definition get_prop (v : JValue) (key : string) : Result (option JValue) :=
  match v with
  | JNull => Throw (TypeError ("Cannot read properties of null (reading '" ++ key ++ "')"))
  | JObj props => Ok (lookup key props)
  | _ => Ok None
  end.

(** The document that the text [JSON.stringify(v, null, 2)] denotes: a
    number that is not finite is written [null], a negative zero is
    written [0], and everything else is written as it is. *)
Fixpoint as_written (v : JValue) : JValue :=
  match v with
  | JNum (S754_infinity _) => JNull
  | JNum S754_nan => JNull
  | JNum (S754_zero _) => JNum (S754_zero false)
  | JArr items => JArr (map as_written items)
  | JObj props => JObj (map (fun kv => (fst kv, as_written (snd kv))) props)
  | _ => v
  end.

End Js.
Import Js.

(** ** URLs

    The part of [new URL(s)] that the scripts use, on URLs of the form
    [scheme://host[:port]/path] without user info, dot segments or
    characters that need escaping, which is what [BASE_URL + path] is for
    every path the scripts request. *)

Module Url.

(** [cut c s] splits [s] at the first occurrence of [c]: the text before
    it, and the text after it if [c] occurs. *)
Fixpoint cut (c : ascii) (s : string) : string * option string :=
  match s with
  | EmptyString => (EmptyString, None)
  | String a rest =>
      if Ascii.eqb a c then (EmptyString, Some rest)
      else let (before, after) := cut c rest in (String a before, after)
  end.

Fixpoint drop_scheme (s : string) : string :=
  match s with
  | String ":" (String "/" (String "/" rest)) => rest
  | String _ rest => drop_scheme rest
  | EmptyString => EmptyString
  end.

Record URL : Type := mkURL { hostname : string; port : string; pathname : string }.

Definition parse (s : string) : URL :=
  let (authority, rest) := cut "/" (drop_scheme s) in
  let (host, p) := cut ":" authority in
  let path :=
    match rest with
    | Some r => String "/" (fst (cut "#" (fst (cut "?" r))))
    | None => "/"
    end in
  mkURL host (match p with Some p => p | None => "" end) path.

End Url.

(** ** The environment: transport, clock, completion order, disk *)

(** [url.port || 443]: the port text of the URL, or the number 443. *)
Inductive Port : Type :=
| PortText (s : string)
| PortNumber (n : Z).

(** The [options] object handed to [https.request]. *)
Record RequestOptions : Type := mkOptions {
  hostname : string;
  port : Port;
  path : string;
  method : string;
  headers : list (string * JValue);
  rejectUnauthorized : bool
}.

(** The body of a response once all chunks have been appended to [data]:
    either [JSON.parse data] yields a value, or it throws and [data] is
    kept for the error message. *)
Inductive Body : Type :=
| Json (v : JValue)
| NotJson (data : string).

(** What happens to one request: an ['error'] event on the request, a
    response with a status code whose ['end'] event fires, or neither of
    the two (the hub never answers, or the response is cut off after its
    headers). *)
Inductive Outcome : Type :=
| NetworkError (err : JsError)
| Response (statusCode : Z) (body : Body)
| NoAnswer.

Record Env : Type := mkEnv {
  (** the hub and the network: the outcome of a request, given the
      requests issued before it *)
  transport : list RequestOptions -> RequestOptions -> Outcome;
  (** [new Date().toISOString()] at the n-th reading of the clock *)
  clock : nat -> string;
  (** the order in which the requests of a batch settle, by position *)
  completion : list nat;
  (** the error with which writing the file of that name fails, if it
      does *)
  disk : string -> option JsError
}.

(** The state the scripts act on: requests issued so far (oldest first),
    files whose writing has succeeded, each with the document that its
    text denotes, and clock readings made. *)
Record World : Type := mkWorld {
  requests : list RequestOptions;
  files : list (string * JValue);
  clock_reads : nat
}.

Definition start : World := mkWorld [] [] 0.

(** ** A state and exception monad for [async] code run to completion *)

Definition M (A : Type) : Type := World -> Result A * World.

Definition ret {A} (a : A) : M A := fun w => (Ok a, w).
Definition throw {A} (e : JsError) : M A := fun w => (Throw e, w).
Definition bind {A B} (m : M A) (k : A -> M B) : M B :=
  fun w =>
    match m w with
    | (Ok a, w') => k a w'
    | (Throw e, w') => (Throw e, w')
    | (Pending, w') => (Pending, w')
    end.
(** [try { m } catch (error) { h error }] *)
Definition try_catch {A} (m : M A) (h : JsError -> M A) : M A :=
  fun w =>
    match m w with
    | (Ok a, w') => (Ok a, w')
    | (Throw e, w') => h e w'
    | (Pending, w') => (Pending, w')
    end.
Definition lift {A} (r : Result A) : M A := fun w => (r, w).

Notation "x <- m ;; k" := (bind m (fun x => k))
  (at level 61, m at next level, right associativity).
Notation "m ;;; k" := (bind m (fun _ => k))
  (at level 61, right associativity).

(** ** What the Node.js runtime provides *)

(** The handler of the response's ['end'] event:
    [try { resolve(JSON.parse(data)) } catch (e) { reject(...) }]. *)
Definition on_end (body : Body) : Result JValue :=
  match body with
  | Json jsonData => Ok jsonData
  | NotJson data => Throw (Error ("Invalid JSON response: " ++ data))
  end.

(** How the promise of [makeRequest] settles: an ['error'] event rejects
    with the error itself, a response settles at its ['end'] event, and
    without either event the promise stays pending.  [res.statusCode] is
    never read. *)
Definition settle (o : Outcome) : Result JValue :=
  match o with
  | NetworkError err => Throw err
  | Response _ body => on_end body
  | NoAnswer => Pending
  end.

(** The world after one more request has been issued. *)
Definition issue (options : RequestOptions) (w : World) : World :=
  mkWorld (requests w ++ [options]) (files w) (clock_reads w).

Section Runtime.

Variable env : Env.

(** The executor of the promise that [makeRequest] returns, once [options]
    is built (lines 19-38 of both scripts, which are the same text):
    [https.request(options, callback)], the two event handlers and
    [req.end()]. *)
Definition https_request (options : RequestOptions) : M JValue :=
  fun w => (settle (transport env (requests w) options), issue options w).

(** [new Date().toISOString()] *)
Definition Date_toISOString : M string :=
  fun w =>
    (Ok (clock env (clock_reads w)),
     mkWorld (requests w) (files w) (S (clock_reads w))).

(** [fs.writeFileSync(filename, JSON.stringify(value, null, 2))]: the
    write throws, or the file is recorded with the document that the
    text written denotes. *)
Definition writeFileSync (filename : string) (value : JValue) : M unit :=
  fun w =>
    match disk env filename with
    | Some err => (Throw err, w)
    | None =>
        (Ok tt,
         mkWorld (requests w) (files w ++ [(filename, as_written value)]) (clock_reads w))
    end.

(** Calling an [async] function whose effects all happen before its first
    suspension yields a promise; the promise is represented by the result
    it settles with. *)
Definition spawn {A} (m : M A) : M (Result A) :=
  fun w => let (r, w') := m w in (Ok r, w').

End Runtime.

(** [s.replace(/[:.]/g, '-')] *)
Fixpoint replace_colon_dot (s : string) : string :=
  match s with
  | EmptyString => EmptyString
  | String c rest =>
      String (if Ascii.eqb c ":" || Ascii.eqb c "." then "-"%char else c)
             (replace_colon_dot rest)
  end.

(** ** [Promise.all] *)

Section PromiseAll.

Context {A : Type}.

(** The first promise to reject, going through the positions in the order
    in which they settle. *)
Fixpoint first_rejection (order : list nat) (ps : list (Result A)) : option JsError :=
  match order with
  | [] => None
  | i :: rest =>
      match nth_error ps i with
      | Some (Throw e) => Some e
      | _ => first_rejection rest ps
      end
  end.

Fixpoint fulfilled (ps : list (Result A)) : list A :=
  match ps with
  | [] => []
  | Ok a :: rest => a :: fulfilled rest
  | Throw _ :: rest => fulfilled rest
  | Pending :: rest => fulfilled rest
  end.

Definition is_pending (r : Result A) : bool :=
  match r with
  | Pending => true
  | _ => false
  end.

(** [Promise.all(ps)] where the promises that settle do so in the order
    [order] (positions that [order] leaves out settle afterwards, by
    position): it rejects with the reason of the first promise that
    rejects; otherwise it stays pending if some promise never settles,
    and resolves with all the values, by position, if all fulfil. *)
Definition Promise_all (order : list nat) (ps : list (Result A)) : Result (list A) :=
  match first_rejection (order ++ seq 0 (List.length ps)) ps with
  | Some e => Throw e
  | None => if existsb is_pending ps then Pending else Ok (fulfilled ps)
  end.

End PromiseAll.

(** The outcome of running a script's [main]: it returns normally, or it
    ends the process with [process.exit(code)].  (A [main] that waits for
    a request that never settles is [Pending].) *)
Inductive Status : Type :=
| Returned
| Exited (code : Z).

(** [url.port || 443] *)
Definition port_or_443 (p : string) : Port :=
  if String.eqb p "" then PortNumber 443 else PortText p.

(** ** [src/get-devices.js] *)

Module GetDevices.
Section Script.

Variable env : Env.

Definition WEB_API_TOKEN : string := "".
Definition BASE_URL : string := "https://10.1.1.40/cws/api".

(** The [options] object that [makeRequest] builds. *)
Definition options (path : string) (headers : list (string * JValue)) : RequestOptions :=
  let url := Url.parse (BASE_URL ++ path) in
  mkOptions (Url.hostname url) (port_or_443 (Url.port url)) (Url.pathname url)
            "GET" headers false.

Definition makeRequest (path : string) (headers : list (string * JValue)) : M JValue :=
  https_request env (options path headers).

Definition getAuthKey : M JValue :=
  try_catch
    (response <- makeRequest "/login" [("Crestron-RestAPI-AuthToken", JStr WEB_API_TOKEN)] ;;
     authkey <- lift (get_prop response "authkey") ;;
     match authkey with
     | Some key => if truthy key then ret key
                   else throw (Error "No auth key in response")
     | None => throw (Error "No auth key in response")
     end)
    (fun error => throw (Error ("Failed to get auth key: " ++ message error))).

Definition getDevices (authKey : JValue) : M JValue :=
  try_catch
    (response <- makeRequest "/devices" [("Crestron-RestAPI-AuthKey", authKey)] ;;
     ret response)
    (fun error => throw (Error ("Failed to get devices: " ++ message error))).

Definition getSensors (authKey : JValue) : M JValue :=
  try_catch
    (response <- makeRequest "/sensors" [("Crestron-RestAPI-AuthKey", authKey)] ;;
     ret response)
    (fun error => throw (Error ("Failed to get sensors: " ++ message error))).

(** [main]: login, read the sensors, write them to a file.  The test
    [devices.devices && Array.isArray(devices.devices)] only guards a
    console message, but reading [devices.devices] throws on [null]. *)
Definition main : M Status :=
  try_catch
    (authKey <- getAuthKey ;;
     devices <- getSensors authKey ;;
     _ <- lift (get_prop devices "devices") ;;
     now <- Date_toISOString env ;;
     let timestamp := replace_colon_dot now in
     let filename := "devices-" ++ timestamp ++ ".json" in
     writeFileSync env filename devices ;;;
     ret Returned)
    (fun error => ret (Exited 1)).

End Script.
End GetDevices.

(** ** The second script (login, then everything in parallel) *)

Module GetAll.
Section Script.

Variable env : Env.

Definition WEB_API_TOKEN : string := "C6p5Mtp57LCP".
Definition BASE_URL : string := "https://10.1.1.40/cws/api".

(** [method = "GET"] is a default parameter: [None] is an omitted
    argument. *)
Definition options (path : string) (headers : list (string * JValue))
    (method : option string) : RequestOptions :=
  let method := match method with Some m => m | None => "GET" end in
  let url := Url.parse (BASE_URL ++ path) in
  mkOptions (Url.hostname url) (port_or_443 (Url.port url)) (Url.pathname url)
            method headers false.

Definition makeRequest (path : string) (headers : list (string * JValue))
    (method : option string) : M JValue :=
  https_request env (options path headers method).

Definition getAuthKey : M JValue :=
  try_catch
    (response <- makeRequest "/login" [("Crestron-RestAPI-AuthToken", JStr WEB_API_TOKEN)] None ;;
     authkey <- lift (get_prop response "authkey") ;;
     match authkey with
     | Some key => if truthy key then ret key
                   else throw (Error "No auth key in response")
     | None => throw (Error "No auth key in response")
     end)
    (fun error => throw (Error ("Failed to get auth key: " ++ message error))).

Definition getDevices (authKey : JValue) : M JValue :=
  try_catch
    (response <- makeRequest "/devices" [("Crestron-RestAPI-AuthKey", authKey)] None ;;
     ret response)
    (fun error => throw (Error ("Failed to get devices: " ++ message error))).

Definition getSensors (authKey : JValue) : M JValue :=
  try_catch
    (response <- makeRequest "/sensors" [("Crestron-RestAPI-AuthKey", authKey)] None ;;
     ret response)
    (fun error => throw (Error ("Failed to get sensors: " ++ message error))).

Definition getRooms (authKey : JValue) : M JValue :=
  try_catch
    (response <- makeRequest "/rooms" [("Crestron-RestAPI-AuthKey", authKey)] None ;;
     ret response)
    (fun error => throw (Error ("Failed to get rooms: " ++ message error))).

Definition getScenes (authKey : JValue) : M JValue :=
  try_catch
    (response <- makeRequest "/scenes" [("Crestron-RestAPI-AuthKey", authKey)] None ;;
     ret response)
    (fun error => throw (Error ("Failed to get scenes: " ++ message error))).

Definition getSecurityDevices (authKey : JValue) : M JValue :=
  try_catch
    (response <- makeRequest "/securitydevices" [("Crestron-RestAPI-AuthKey", authKey)] None ;;
     ret response)
    (fun error => throw (Error ("Failed to get Security devices: " ++ message error))).

Definition getMediaRooms (authKey : JValue) : M JValue :=
  try_catch
    (response <- makeRequest "/mediarooms" [("Crestron-RestAPI-AuthKey", authKey)] None ;;
     ret response)
    (fun error => throw (Error ("Failed to get media rooms: " ++ message error))).

(** A [POST] without a body; its failure message is that of
    [getMediaRooms], as in the script. *)
Definition playInLivingRoom (authKey : JValue) : M JValue :=
  try_catch
    (response <- makeRequest "/mediarooms/1006/selectsource/53750" [("Crestron-RestAPI-AuthKey", authKey)] (Some "POST") ;;
     ret response)
    (fun error => throw (Error ("Failed to get media rooms: " ++ message error))).

(** The seven calls of the array literal handed to [Promise.all], in the
    order in which they are evaluated. *)
Definition batch : list (JValue -> M JValue) :=
  [getDevices; getSensors; getRooms; getScenes; getSecurityDevices;
   getMediaRooms; playInLivingRoom].

Fixpoint spawn_all {A} (tasks : list (M A)) : M (list (Result A)) :=
  match tasks with
  | [] => ret []
  | t :: rest =>
      p <- spawn t ;;
      ps <- spawn_all rest ;;
      ret (p :: ps)
  end.

(** The object literal [allData]. *)
Definition allData (devices sensors rooms scenes securityDevices mediaRooms
    playAction : JValue) (timestamp : string) : JValue :=
  JObj [("devices", devices); ("sensors", sensors); ("rooms", rooms);
        ("scenes", scenes); ("securityDevices", securityDevices);
        ("mediaRooms", mediaRooms); ("playAction", playAction);
        ("timestamp", JStr timestamp)].

(** [await Promise.all([getDevices(authKey), ...])]: the seven requests
    are issued one after the other, before any of them settles. *)
Definition gather (authKey : JValue) : M (list JValue) :=
  promises <- spawn_all (map (fun f => f authKey) batch) ;;
  lift (Promise_all (completion env) promises).

Definition main : M Status :=
  try_catch
    (authKey <- getAuthKey ;;
     results <- gather authKey ;;
     match results with
     | [devices; sensors; rooms; scenes; securityDevices; mediaRooms; playAction] =>
         stamp <- Date_toISOString env ;;
         let data := allData devices sensors rooms scenes securityDevices
                             mediaRooms playAction stamp in
         _ <- lift (get_prop devices "devices") ;;
         _ <- lift (get_prop sensors "devices") ;;
         _ <- lift (get_prop rooms "rooms") ;;
         _ <- lift (get_prop scenes "scenes") ;;
         now <- Date_toISOString env ;;
         let timestamp := replace_colon_dot now in
         let filename := "crestron-home-data-" ++ timestamp ++ ".json" in
         writeFileSync env filename data ;;;
         ret Returned
     | _ => throw (TypeError "Cannot read properties of undefined")
     end)
    (fun error => ret (Exited 1)).

End Script.
End GetAll.

(** ** The session client of the specification *)

Module SessionClient.

(** Modelled from the spec: [setLightLevels] and the [CommandRequest] it
    takes are not in the scripts.  The specification (section 4.1) says:
    each element's level must lie in [0, 65535]; the fade time must be a
    non-negative number of milliseconds; a request with a level out of
    range fails validation locally, before any network call, with a
    [ValidationError] naming the offending id; otherwise one batched
    mutation is issued and the hub's answer is handed back unmodified.
    Every failure carries the name of the operation (section 7), and a
    call without an answer fails with a [TimeoutError] when the caller's
    deadline expires (section 5). *)
Record CommandRequest : Type := mkCommand { id : Z; level : Z; time : Z }.

Inductive Failure : Type :=
| ValidationError (operation : string) (offending : Z)
| ApiError (operation : string) (e : JsError)
| TimeoutError (operation : string).

(** One network call of the client: [POST /lights/SetState] with the
    session key and the batch. *)
Record Call : Type := mkCall { session : JValue; lights : list CommandRequest }.

Definition level_in_range (r : CommandRequest) : bool :=
  (0 <=? level r)%Z && (level r <=? 65535)%Z.

Definition time_valid (r : CommandRequest) : bool := (0 <=? time r)%Z.

Section Client.

(** The hub's answer to a batched mutation. *)
Variable hub : Call -> Result JValue.

(** The state is the list of network calls made so far. *)
Definition setLightLevels (key : JValue) (requests : list CommandRequest)
    (calls : list Call) : (Failure + JValue) * list Call :=
  match find (fun r => negb (level_in_range r)) requests with
  | Some r => (inl (ValidationError "setLightLevels" (id r)), calls)
  | None =>
      match find (fun r => negb (time_valid r)) requests with
      | Some r => (inl (ValidationError "setLightLevels" (id r)), calls)
      | None =>
          let call := mkCall key requests in
          match hub call with
          | Ok outcome => (inr outcome, (calls ++ [call])%list)
          | Throw e => (inl (ApiError "setLightLevels" e), (calls ++ [call])%list)
          | Pending => (inl (TimeoutError "setLightLevels"), (calls ++ [call])%list)
          end
      end
  end.

End Client.
End SessionClient.

(** ** Vocabulary of the statements *)

(** What a [catch (error) { throw new Error(prefix + error.message) }]
    makes of a result. *)
Definition rethrow {A} (prefix : string) (r : Result A) : Result A :=
  match r with
  | Ok a => Ok a
  | Throw e => Throw (Error (prefix ++ message e))
  | Pending => Pending
  end.

(** What the [try] block of [getAuthKey] makes of the settled login
    request: the value of [response.authkey] when it is truthy. *)
Definition read_authkey (r : Result JValue) : Result JValue :=
  match r with
  | Throw e => Throw e
  | Pending => Pending
  | Ok response =>
      match get_prop response "authkey" with
      | Throw e => Throw e
      | Pending => Pending
      | Ok (Some key) =>
          if truthy key then Ok key else Throw (Error "No auth key in response")
      | Ok None => Throw (Error "No auth key in response")
      end
  end.

(** The requests on the wire: the login of each script, and a request
    that carries a session key. *)
Definition login_GetDevices : RequestOptions :=
  GetDevices.options "/login"
    [("Crestron-RestAPI-AuthToken", JStr GetDevices.WEB_API_TOKEN)].

Definition login_GetAll : RequestOptions :=
  GetAll.options "/login"
    [("Crestron-RestAPI-AuthToken", JStr GetAll.WEB_API_TOKEN)] None.

Definition keyed_GetDevices (path : string) (key : JValue) : RequestOptions :=
  GetDevices.options path [("Crestron-RestAPI-AuthKey", key)].

Definition keyed_GetAll (path : string) (method : option string) (key : JValue)
    : RequestOptions :=
  GetAll.options path [("Crestron-RestAPI-AuthKey", key)] method.

Definition is_login (o : RequestOptions) : bool :=
  String.eqb (path o) "/cws/api/login".

(** The number of login round trips made so far. *)
Definition logins (w : World) : nat :=
  List.length (filter is_login (requests w)).

(** The number of requests made so far to one path. *)
Definition attempts (p : string) (w : World) : nat :=
  List.length (filter (fun o => String.eqb (path o) p) (requests w)).

(** A computation never issues a request outside [P], whatever the world
    it starts in. *)
Definition only_issues {A} (P : RequestOptions -> Prop) (m : M A) : Prop :=
  forall w, Forall P (requests w) -> Forall P (requests (snd (m w))).

Definition tls_validation_off (o : RequestOptions) : Prop :=
  rejectUnauthorized o = false.

(** A request that carries a session key, and nothing else, in its
    headers. *)
Definition carries_key (key : JValue) (o : RequestOptions) : Prop :=
  headers o = [("Crestron-RestAPI-AuthKey", key)].

Definition is_rejected {A} (r : Result A) : bool :=
  match r with
  | Throw _ => true
  | _ => false
  end.

(** An operation that issues exactly the request [o] and nothing else,
    and that surfaces every transport failure of that request as an
    [Error] under its own prefix. *)
Definition surfaces_at_once (env : Env) (prefix : string) (o : RequestOptions)
    (m : M JValue) : Prop :=
  forall w,
    snd (m w) = issue o w /\
    (forall err, transport env (requests w) o = NetworkError err ->
       fst (m w) = Throw (Error (prefix ++ message err))) /\
    (forall status data, transport env (requests w) o = Response status (NotJson data) ->
       fst (m w) = Throw (Error (prefix ++ "Invalid JSON response: " ++ data))).

(** The same environment with another completion order. *)
Definition with_completion (order : list nat) (env : Env) : Env :=
  mkEnv (transport env) (clock env) order (disk env).

(** The read functions of each script, each with the path it requests
    and the prefix under which it reports a failure. *)
Definition reads_GetDevices (env : Env) : list (string * string * (JValue -> M JValue)) :=
  [("/devices", "Failed to get devices: ", GetDevices.getDevices env);
   ("/sensors", "Failed to get sensors: ", GetDevices.getSensors env)].

Definition reads_GetAll (env : Env) : list (string * string * (JValue -> M JValue)) :=
  [("/devices", "Failed to get devices: ", GetAll.getDevices env);
   ("/sensors", "Failed to get sensors: ", GetAll.getSensors env);
   ("/rooms", "Failed to get rooms: ", GetAll.getRooms env);
   ("/scenes", "Failed to get scenes: ", GetAll.getScenes env);
   ("/securitydevices", "Failed to get Security devices: ", GetAll.getSecurityDevices env);
   ("/mediarooms", "Failed to get media rooms: ", GetAll.getMediaRooms env)].

(** The world after the requests [os] have been issued, in that order. *)
Definition issue_all (os : list RequestOptions) (w : World) : World :=
  mkWorld (requests w ++ os) (files w) (clock_reads w).

(** The seven requests of the batch of the second script, in the order of
    the array literal. *)
Definition batch_requests (key : JValue) : list RequestOptions :=
  [keyed_GetAll "/devices" None key;
   keyed_GetAll "/sensors" None key;
   keyed_GetAll "/rooms" None key;
   keyed_GetAll "/scenes" None key;
   keyed_GetAll "/securitydevices" None key;
   keyed_GetAll "/mediarooms" None key;
   keyed_GetAll "/mediarooms/1006/selectsource/53750" (Some "POST") key].

(** The promises that the batch of the second script hands to
    [Promise.all], each given by the result it settles with. *)
Definition dispatched (env : Env) (key : JValue) (w : World) : list (Result JValue) :=
  match fst (GetAll.spawn_all (map (fun f => f key) (GetAll.batch env)) w) with
  | Ok promises => promises
  | _ => []
  end.

(** A test that holds of every character of a string. *)
Fixpoint string_forall (f : ascii -> bool) (s : string) : bool :=
  match s with
  | EmptyString => true
  | String c rest => f c && string_forall f rest
  end.

Definition is_colon_or_dot (c : ascii) : bool :=
  Ascii.eqb c ":" || Ascii.eqb c ".".

(** The characters of a path that the URL parser leaves as they are and
    that start neither a query nor a fragment nor a dot segment: letters,
    digits, [/], [-] and [_]. *)
Definition plain_path_char (c : ascii) : bool :=
  let n := nat_of_ascii c in
  ((97 <=? n) && (n <=? 122) || (65 <=? n) && (n <=? 90) ||
   (48 <=? n) && (n <=? 57))%nat ||
  Ascii.eqb c "/" || Ascii.eqb c "-" || Ascii.eqb c "_".

(** A request addressed to the hub of [BASE_URL]. *)
Definition to_the_hub (o : RequestOptions) : Prop :=
  hostname o = "10.1.1.40" /\ port o = PortNumber 443.

Definition is_null (v : JValue) : bool :=
  match v with
  | JNull => true
  | _ => false
  end.

(** The names of the files that the scripts write, from the reading of
    the clock. *)
Definition filename_GetDevices (now : string) : string :=
  "devices-" ++ replace_colon_dot now ++ ".json".

Definition filename_GetAll (now : string) : string :=
  "crestron-home-data-" ++ replace_colon_dot now ++ ".json".

(** The world after the document that the text of [value] denotes has
    been written at the next reading of the clock, and the world after
    the clock has been read [n] times. *)
Definition saved (name : string -> string) (env : Env) (value : JValue) (w : World)
    : World :=
  mkWorld (requests w)
          (files w ++ [(name (clock env (clock_reads w)), as_written value)])
          (S (clock_reads w)).

Definition ticked (n : nat) (w : World) : World :=
  mkWorld (requests w) (files w) (n + clock_reads w).

(** The requests of the batch with the prefix under which each failure
    is reported, and the results with which they settle when each is
    answered with the requests before it as history. *)
Definition batch_specs (key : JValue) : list (string * RequestOptions) :=
  combine
    ["Failed to get devices: "; "Failed to get sensors: "; "Failed to get rooms: ";
     "Failed to get scenes: "; "Failed to get Security devices: ";
     "Failed to get media rooms: "; "Failed to get media rooms: "]
    (batch_requests key).

Fixpoint settle_in_turn (env : Env) (history : list RequestOptions)
    (specs : list (string * RequestOptions)) : list (Result JValue) :=
  match specs with
  | [] => []
  | (prefix, o) :: rest =>
      rethrow prefix (settle (transport env history o))
      :: settle_in_turn env (history ++ [o]) rest
  end.

(** The method and the path of a request, and a name without a colon. *)
Definition method_and_path (o : RequestOptions) : string * string :=
  (method o, path o).

Definition has_no_colon (s : string) : bool :=
  string_forall (fun c => negb (Ascii.eqb c ":")) s.

(** ** Mock hubs *)

Module Mock.

Definition midnight : nat -> string := fun _ => "2025-01-01T00:00:00.000Z".

(** A hub that answers by path only, with a disk that takes every
    write. *)
Definition hub (reply : string -> Outcome) (order : list nat) : Env :=
  mkEnv (fun _ o => reply (path o)) midnight order (fun _ => None).

Definition session_K1 : JValue := JObj [("authkey", JStr "K1")].

(** Login yields the key [K1]; every read is answered with an empty
    device list. *)
Definition healthy : Env :=
  hub (fun p => if String.eqb p "/cws/api/login" then Response 200 (Json session_K1)
                else Response 200 (Json (JObj [("devices", JArr [])])))
      [6; 5; 4; 3; 2; 1; 0]%nat.

(** Login yields [K1], and every call made with it is answered
    [401 Unauthorized]: the session is always expired. *)
Definition always_expired : Env :=
  hub (fun p => if String.eqb p "/cws/api/login" then Response 200 (Json session_K1)
                else Response 401 (NotJson "Unauthorized"))
      [0; 1; 2; 3; 4; 5; 6]%nat.

(** The login endpoint answers with status 401 and a body that still
    holds a key. *)
Definition login_401_with_key : Env :=
  hub (fun _ => Response 401 (Json session_K1)) [].

(** Everything works except the rooms endpoint, whose connection is
    refused. *)
Definition rooms_down : Env :=
  hub (fun p => if String.eqb p "/cws/api/login" then Response 200 (Json session_K1)
                else if String.eqb p "/cws/api/rooms"
                     then NetworkError (Error "connect ECONNREFUSED 10.1.1.40:443")
                     else Response 200 (Json (JObj [("devices", JArr [])])))
      [6; 5; 4; 3; 2; 1; 0]%nat.

(** A device list whose only element has no [id] and a [level] that is
    not a number. *)
Definition malformed_devices : JValue :=
  JObj [("devices", JArr [JObj [("name", JStr "Downlight"); ("level", JStr "high")]])].

Definition malformed : Env :=
  hub (fun p => if String.eqb p "/cws/api/login" then Response 200 (Json session_K1)
                else Response 200 (Json malformed_devices))
      [].

(** Login yields [K1], and no call made with it is ever answered. *)
Definition silent : Env :=
  hub (fun p => if String.eqb p "/cws/api/login" then Response 200 (Json session_K1)
                else NoAnswer)
      [].

(** A hub for the session client that accepts every batch. *)
Definition accepting (c : SessionClient.Call) : Result JValue :=
  Ok (JObj [("status", JStr "success")]).

End Mock.

(** * Properties *)

(** ** How the operations run *)

Section Runs.

Variable env : Env.

Lemma https_request_run (o : RequestOptions) (w : World) :
  https_request env o w = (settle (transport env (requests w) o), issue o w).
Proof. reflexivity. Qed.

Lemma GetDevices_makeRequest_run path headers w :
  GetDevices.makeRequest env path headers w =
  (settle (transport env (requests w) (GetDevices.options path headers)),
   issue (GetDevices.options path headers) w).
Proof. reflexivity. Qed.

Lemma GetAll_makeRequest_run path headers method w :
  GetAll.makeRequest env path headers method w =
  (settle (transport env (requests w) (GetAll.options path headers method)),
   issue (GetAll.options path headers method) w).
Proof. reflexivity. Qed.

Lemma GetDevices_getAuthKey_run w :
  GetDevices.getAuthKey env w =
  (rethrow "Failed to get auth key: "
     (read_authkey (settle (transport env (requests w) login_GetDevices))),
   issue login_GetDevices w).
Proof.
  unfold GetDevices.getAuthKey, try_catch, bind.
  rewrite GetDevices_makeRequest_run. fold login_GetDevices.
  destruct (settle _) as [response | e | ]; simpl; [ | reflexivity | reflexivity ].
  unfold lift. destruct (get_prop response "authkey") as [[key | ] | e | ]; simpl;
    try reflexivity.
  destruct (truthy key); reflexivity.
Qed.

Lemma GetAll_getAuthKey_run w :
  GetAll.getAuthKey env w =
  (rethrow "Failed to get auth key: "
     (read_authkey (settle (transport env (requests w) login_GetAll))),
   issue login_GetAll w).
Proof.
  unfold GetAll.getAuthKey, try_catch, bind.
  rewrite GetAll_makeRequest_run. fold login_GetAll.
  destruct (settle _) as [response | e | ]; simpl; [ | reflexivity | reflexivity ].
  unfold lift. destruct (get_prop response "authkey") as [[key | ] | e | ]; simpl;
    try reflexivity.
  destruct (truthy key); reflexivity.
Qed.

Lemma GetDevices_getDevices_run key w :
  GetDevices.getDevices env key w =
  (rethrow "Failed to get devices: "
     (settle (transport env (requests w) (keyed_GetDevices "/devices" key))),
   issue (keyed_GetDevices "/devices" key) w).
Proof.
  unfold GetDevices.getDevices, try_catch, bind.
  rewrite GetDevices_makeRequest_run. fold (keyed_GetDevices "/devices" key).
  destruct (settle _); reflexivity.
Qed.

Lemma GetDevices_getSensors_run key w :
  GetDevices.getSensors env key w =
  (rethrow "Failed to get sensors: "
     (settle (transport env (requests w) (keyed_GetDevices "/sensors" key))),
   issue (keyed_GetDevices "/sensors" key) w).
Proof.
  unfold GetDevices.getSensors, try_catch, bind.
  rewrite GetDevices_makeRequest_run. fold (keyed_GetDevices "/sensors" key).
  destruct (settle _); reflexivity.
Qed.

Lemma GetAll_playInLivingRoom_run key w :
  GetAll.playInLivingRoom env key w =
  (rethrow "Failed to get media rooms: "
     (settle (transport env (requests w)
                (keyed_GetAll "/mediarooms/1006/selectsource/53750" (Some "POST") key))),
   issue (keyed_GetAll "/mediarooms/1006/selectsource/53750" (Some "POST") key) w).
Proof.
  unfold GetAll.playInLivingRoom, try_catch, bind.
  rewrite GetAll_makeRequest_run.
  fold (keyed_GetAll "/mediarooms/1006/selectsource/53750" (Some "POST") key).
  destruct (settle _); reflexivity.
Qed.

End Runs.

(** Runs a function of the second script that makes one request with a
    key and wraps its failure. *)
Ltac run_keyed :=
  unfold GetAll.getDevices, GetAll.getSensors, GetAll.getRooms, GetAll.getScenes,
    GetAll.getSecurityDevices, GetAll.getMediaRooms, GetAll.playInLivingRoom,
    keyed_GetAll, try_catch, bind;
  rewrite GetAll_makeRequest_run;
  match goal with
  | |- context [settle ?o] => destruct (settle o)
  end;
  reflexivity.

(** ** The transport layer *)

Section Transport.

Variable env : Env.

Lemma settle_json status v : settle (Response status (Json v)) = Ok v.
Proof. reflexivity. Qed.

Lemma settle_throw o e :
  settle o = Throw e ->
  o = NetworkError e \/
  exists status data,
    o = Response status (NotJson data) /\ e = Error ("Invalid JSON response: " ++ data).
Proof.
  destruct o as [err | status [v | data] | ]; simpl; intros H.
  - left. congruence.
  - discriminate.
  - right. exists status, data. split; congruence.
  - discriminate.
Qed.

Lemma settle_status_blind s s' body :
  settle (Response s body) = settle (Response s' body).
Proof. reflexivity. Qed.

End Transport.

(** C9: the transport layer never looks at the HTTP status code.  In both
    scripts, [makeRequest] resolves with the parsed body for every
    response whose body is JSON, whatever the status (a 404 or a 500
    included); it rejects only on a network error, with that error, or on
    a body that is not JSON, with [Invalid JSON response]; and two
    responses with the same body and different status codes give the
    caller the same result. *)
Theorem makeRequest_ignores_status_code (env : Env) (path : string)
    (headers : list (string * JValue)) (method : option string) (w : World) :
  let sent := GetDevices.options path headers in
  let sent' := GetAll.options path headers method in
  let result := fst (GetDevices.makeRequest env path headers w) in
  let result' := fst (GetAll.makeRequest env path headers method w) in
  (forall status v,
      (transport env (requests w) sent = Response status (Json v) -> result = Ok v) /\
      (transport env (requests w) sent' = Response status (Json v) -> result' = Ok v)) /\
  (forall e,
      (result = Throw e ->
       transport env (requests w) sent = NetworkError e \/
       exists status data,
         transport env (requests w) sent = Response status (NotJson data) /\
         e = Error ("Invalid JSON response: " ++ data)) /\
      (result' = Throw e ->
       transport env (requests w) sent' = NetworkError e \/
       exists status data,
         transport env (requests w) sent' = Response status (NotJson data) /\
         e = Error ("Invalid JSON response: " ++ data))) /\
  (forall env' w' s s' body,
      (transport env (requests w) sent = Response s body ->
       transport env' (requests w') sent = Response s' body ->
       fst (GetDevices.makeRequest env' path headers w') = result) /\
      (transport env (requests w) sent' = Response s body ->
       transport env' (requests w') sent' = Response s' body ->
       fst (GetAll.makeRequest env' path headers method w') = result')).
Proof.
  intros sent sent' result result'. subst result result'.
  unfold GetDevices.makeRequest, GetAll.makeRequest, https_request.
  cbn [fst]. fold sent sent'.
  split; [ | split ].
  - intros status v. split; intros ->; apply settle_json.
  - intros e. split; apply settle_throw.
  - intros env' w' s s' body.
    split; intros -> ->; apply settle_status_blind.
Qed.

(** A response with status 500 and a JSON body resolves like a success. *)
Example makeRequest_resolves_on_500 :
  fst (GetAll.makeRequest
         (Mock.hub (fun _ => Response 500 (Json (JObj [("error", JStr "boom")]))) [])
         "/devices" [] None start)
  = Ok (JObj [("error", JStr "boom")]).
Proof. reflexivity. Qed.

Lemma makeRequest_on_a_500_with_json :
  fst (GetAll.makeRequest
         (Mock.hub (fun _ => Response 500 (Json (JObj [("error", JStr "boom")]))) [])
         "/devices" [] (Some "POST") start)
  = Ok (JObj [("error", JStr "boom")]).
Proof.
  destruct (makeRequest_ignores_status_code
              (Mock.hub (fun _ => Response 500 (Json (JObj [("error", JStr "boom")]))) [])
              "/devices" [] (Some "POST") start) as (Hjson & _).
  destruct (Hjson 500%Z (JObj [("error", JStr "boom")])) as (_ & Hall).
  apply Hall. reflexivity.
Defined.

(** ** Requests and TLS *)

Section OnlyIssues.

Variable env : Env.
Variable P : RequestOptions -> Prop.

Lemma only_issues_ret {A} (a : A) : only_issues P (ret a).
Proof. intros w H. exact H. Qed.

Lemma only_issues_throw {A} (e : JsError) : only_issues P (@throw A e).
Proof. intros w H. exact H. Qed.

Lemma only_issues_lift {A} (r : Result A) : only_issues P (lift r).
Proof. intros w H. exact H. Qed.

Lemma only_issues_bind {A B} (m : M A) (k : A -> M B) :
  only_issues P m -> (forall a, only_issues P (k a)) -> only_issues P (bind m k).
Proof.
  intros Hm Hk w H. unfold bind.
  specialize (Hm w H). destruct (m w) as [[a | e | ] w']; simpl in *.
  - apply Hk, Hm.
  - exact Hm.
  - exact Hm.
Qed.

Lemma only_issues_try_catch {A} (m : M A) (h : JsError -> M A) :
  only_issues P m -> (forall e, only_issues P (h e)) -> only_issues P (try_catch m h).
Proof.
  intros Hm Hh w H. unfold try_catch.
  specialize (Hm w H). destruct (m w) as [[a | e | ] w']; simpl in *.
  - exact Hm.
  - apply Hh, Hm.
  - exact Hm.
Qed.

Lemma only_issues_https_request (o : RequestOptions) :
  P o -> only_issues P (https_request env o).
Proof.
  intros Ho w H. simpl. apply Forall_app. split; [ exact H | ].
  constructor; [ exact Ho | constructor ].
Qed.

Lemma only_issues_clock : only_issues P (Date_toISOString env).
Proof. intros w H. exact H. Qed.

Lemma only_issues_write filename value :
  only_issues P (writeFileSync env filename value).
Proof. intros w H. unfold writeFileSync. destruct (disk env filename); exact H. Qed.

Lemma only_issues_spawn {A} (m : M A) : only_issues P m -> only_issues P (spawn m).
Proof.
  intros Hm w H. unfold spawn. specialize (Hm w H).
  destruct (m w) as [r w']. exact Hm.
Qed.

Lemma only_issues_spawn_all {A} (tasks : list (M A)) :
  Forall (only_issues P) tasks -> only_issues P (GetAll.spawn_all tasks).
Proof.
  induction 1 as [ | t rest Ht _ IH]; simpl.
  - apply only_issues_ret.
  - apply only_issues_bind; [ apply only_issues_spawn, Ht | intros p ].
    apply only_issues_bind; [ exact IH | intros ps; apply only_issues_ret ].
Qed.

End OnlyIssues.

Ltac step_issues :=
  repeat (cbv beta;
    lazymatch goal with
    | |- only_issues _ (try_catch _ _) => apply only_issues_try_catch; [ | intros ? ]
    | |- only_issues _ (bind _ _) => apply only_issues_bind; [ | intros ? ]
    | |- only_issues _ (ret _) => apply only_issues_ret
    | |- only_issues _ (throw _) => apply only_issues_throw
    | |- only_issues _ (lift _) => apply only_issues_lift
    | |- only_issues _ (Date_toISOString _) => apply only_issues_clock
    | |- only_issues _ (writeFileSync _ _ _) => apply only_issues_write
    | |- only_issues _ (match ?x with _ => _ end) => destruct x
    | |- only_issues _ (if ?b then _ else _) => destruct b
    end).

Section TlsOff.

Variable env : Env.

Lemma GetDevices_makeRequest_tls path headers :
  only_issues tls_validation_off (GetDevices.makeRequest env path headers).
Proof. apply only_issues_https_request. reflexivity. Qed.

Lemma GetAll_makeRequest_tls path headers method :
  only_issues tls_validation_off (GetAll.makeRequest env path headers method).
Proof. apply only_issues_https_request. reflexivity. Qed.

Lemma GetDevices_getAuthKey_tls :
  only_issues tls_validation_off (GetDevices.getAuthKey env).
Proof.
  unfold GetDevices.getAuthKey. step_issues. apply GetDevices_makeRequest_tls.
Qed.

Lemma GetAll_getAuthKey_tls :
  only_issues tls_validation_off (GetAll.getAuthKey env).
Proof.
  unfold GetAll.getAuthKey. step_issues. apply GetAll_makeRequest_tls.
Qed.

Lemma GetDevices_getDevices_tls key :
  only_issues tls_validation_off (GetDevices.getDevices env key).
Proof. unfold GetDevices.getDevices. step_issues. apply GetDevices_makeRequest_tls. Qed.

Lemma GetDevices_getSensors_tls key :
  only_issues tls_validation_off (GetDevices.getSensors env key).
Proof. unfold GetDevices.getSensors. step_issues. apply GetDevices_makeRequest_tls. Qed.

Lemma GetAll_batch_tls key :
  Forall (only_issues tls_validation_off) (map (fun f => f key) (GetAll.batch env)).
Proof.
  repeat constructor;
    unfold GetAll.getDevices, GetAll.getSensors, GetAll.getRooms, GetAll.getScenes,
      GetAll.getSecurityDevices, GetAll.getMediaRooms, GetAll.playInLivingRoom;
    step_issues; apply GetAll_makeRequest_tls.
Qed.

End TlsOff.

Section TlsOffMain.

Variable env : Env.

Lemma GetAll_gather_tls key : only_issues tls_validation_off (GetAll.gather env key).
Proof.
  unfold GetAll.gather. step_issues.
  apply only_issues_spawn_all, GetAll_batch_tls.
Qed.

Lemma GetDevices_main_tls : only_issues tls_validation_off (GetDevices.main env).
Proof.
  unfold GetDevices.main. step_issues.
  - apply GetDevices_getAuthKey_tls.
  - apply GetDevices_getSensors_tls.
Qed.

Lemma GetAll_main_tls : only_issues tls_validation_off (GetAll.main env).
Proof.
  unfold GetAll.main. step_issues.
  - apply GetAll_getAuthKey_tls.
  - apply GetAll_gather_tls.
Qed.

End TlsOffMain.

(** C10: every HTTPS request that any function of either script issues is
    configured with [rejectUnauthorized: false], that is with TLS
    certificate validation switched off: [makeRequest] for every path,
    headers and method, the login, every read, the media command, and a
    whole run of [main], from whatever world they start in. *)
Theorem every_request_has_certificate_validation_off (env : Env) :
  (forall path headers,
      only_issues tls_validation_off (GetDevices.makeRequest env path headers)) /\
  (forall path headers method,
      only_issues tls_validation_off (GetAll.makeRequest env path headers method)) /\
  only_issues tls_validation_off (GetDevices.getAuthKey env) /\
  (forall key, only_issues tls_validation_off (GetDevices.getDevices env key)) /\
  (forall key, only_issues tls_validation_off (GetDevices.getSensors env key)) /\
  only_issues tls_validation_off (GetAll.getAuthKey env) /\
  (forall key,
      Forall (only_issues tls_validation_off) (map (fun f => f key) (GetAll.batch env))) /\
  only_issues tls_validation_off (GetDevices.main env) /\
  only_issues tls_validation_off (GetAll.main env) /\
  Forall tls_validation_off (requests (snd (GetDevices.main env start))) /\
  Forall tls_validation_off (requests (snd (GetAll.main env start))).
Proof.
  repeat split.
  - apply GetDevices_makeRequest_tls.
  - apply GetAll_makeRequest_tls.
  - apply GetDevices_getAuthKey_tls.
  - apply GetDevices_getDevices_tls.
  - apply GetDevices_getSensors_tls.
  - apply GetAll_getAuthKey_tls.
  - apply GetAll_batch_tls.
  - apply GetDevices_main_tls.
  - apply GetAll_main_tls.
  - apply GetDevices_main_tls. constructor.
  - apply GetAll_main_tls. constructor.
Qed.

(** ** Login *)

Lemma read_authkey_ok (prefix : string) (o : Outcome) (key : JValue) :
  rethrow prefix (read_authkey (settle o)) = Ok key <->
  exists status response,
    o = Response status (Json response) /\
    get_prop response "authkey" = Ok (Some key) /\
    truthy key = true.
Proof.
  split.
  - destruct o as [err | status [response | data] | ]; simpl; try discriminate.
    destruct (get_prop response "authkey") as [[k | ] | e | ] eqn:Hprop; simpl;
      try discriminate.
    destruct (truthy k) eqn:Htruthy; simpl; try discriminate.
    intros [= <-]. exists status, response. auto.
  - intros (status & response & -> & Hprop & Htruthy). simpl.
    rewrite Hprop, Htruthy. reflexivity.
Qed.

Lemma read_authkey_result (prefix : string) (o : Outcome) :
  (exists key, rethrow prefix (read_authkey (settle o)) = Ok key) \/
  (exists msg, rethrow prefix (read_authkey (settle o)) = Throw (Error (prefix ++ msg))) \/
  rethrow prefix (read_authkey (settle o)) = Pending.
Proof.
  destruct (read_authkey (settle o)) as [key | e | ]; simpl.
  - left. exists key. reflexivity.
  - right. left. exists (message e). reflexivity.
  - right. right. reflexivity.
Qed.

Lemma get_prop_settles v k : get_prop v k <> Pending.
Proof. destruct v; discriminate. Qed.

Lemma read_authkey_pending (prefix : string) (o : Outcome) :
  rethrow prefix (read_authkey (settle o)) = Pending <-> o = NoAnswer.
Proof.
  split; [ | intros ->; reflexivity ].
  destruct o as [err | status [response | data] | ]; simpl; try discriminate;
    [ | reflexivity ].
  pose proof (get_prop_settles response "authkey") as Hsettles.
  destruct (get_prop response "authkey") as [[k | ] | e | ]; simpl;
    try discriminate; [ | contradiction ].
  destruct (truthy k); discriminate.
Qed.

(** C2 (as stated, fails): the login endpoint answers with status 401 and
    a body that holds [authkey: "K1"]; both scripts return ["K1"] as the
    session key, where the specification asks for an authentication error
    for every status other than 200. *)
Lemma getAuthKey_returns_key_on_401 :
  transport Mock.login_401_with_key (requests start) login_GetAll
    = Response 401 (Json (JObj [("authkey", JStr "K1")])) /\
  fst (GetAll.getAuthKey Mock.login_401_with_key start) = Ok (JStr "K1") /\
  transport Mock.login_401_with_key (requests start) login_GetDevices
    = Response 401 (Json (JObj [("authkey", JStr "K1")])) /\
  fst (GetDevices.getAuthKey Mock.login_401_with_key start) = Ok (JStr "K1").
Proof. repeat split. Qed.

(** C2 (amended): in both scripts [getAuthKey] returns a session key if
    and only if the body of the login response parses as JSON and its
    [authkey] property is truthy (present, and not null, false, zero or
    the empty string), whatever the HTTP status; the key returned is that
    property.  When the login request never settles (neither an error nor
    the end of a response arrives, and there is no timeout), and only
    then, [getAuthKey] neither returns nor throws.  In every other case
    (property missing or falsy, body not JSON, network error) it throws
    an [Error] whose message starts with [Failed to get auth key: ]. *)
Theorem getAuthKey_returns_truthy_authkey (env : Env) (w : World) :
  (forall key,
      fst (GetDevices.getAuthKey env w) = Ok key <->
      exists status response,
        transport env (requests w) login_GetDevices = Response status (Json response) /\
        get_prop response "authkey" = Ok (Some key) /\
        truthy key = true) /\
  (forall key,
      fst (GetAll.getAuthKey env w) = Ok key <->
      exists status response,
        transport env (requests w) login_GetAll = Response status (Json response) /\
        get_prop response "authkey" = Ok (Some key) /\
        truthy key = true) /\
  (fst (GetDevices.getAuthKey env w) = Pending <->
   transport env (requests w) login_GetDevices = NoAnswer) /\
  (fst (GetAll.getAuthKey env w) = Pending <->
   transport env (requests w) login_GetAll = NoAnswer) /\
  ((exists key, fst (GetDevices.getAuthKey env w) = Ok key) \/
   (exists msg, fst (GetDevices.getAuthKey env w)
                = Throw (Error ("Failed to get auth key: " ++ msg))) \/
   fst (GetDevices.getAuthKey env w) = Pending) /\
  ((exists key, fst (GetAll.getAuthKey env w) = Ok key) \/
   (exists msg, fst (GetAll.getAuthKey env w)
                = Throw (Error ("Failed to get auth key: " ++ msg))) \/
   fst (GetAll.getAuthKey env w) = Pending).
Proof.
  rewrite GetDevices_getAuthKey_run, GetAll_getAuthKey_run. cbn [fst].
  split; [ intros key; apply read_authkey_ok | ].
  split; [ intros key; apply read_authkey_ok | ].
  split; [ apply read_authkey_pending | ].
  split; [ apply read_authkey_pending | ].
  split; apply read_authkey_result.
Qed.

(** A login that is never answered leaves [getAuthKey] pending. *)
Example getAuthKey_pending_without_answer :
  fst (GetAll.getAuthKey (Mock.hub (fun _ => NoAnswer) []) start) = Pending.
Proof. reflexivity. Qed.

(** The falsy keys are refused: an empty string, and a missing field. *)
Example getAuthKey_refuses_empty_key :
  fst (GetAll.getAuthKey
         (Mock.hub (fun _ => Response 200 (Json (JObj [("authkey", JStr "")]))) []) start)
  = Throw (Error "Failed to get auth key: No auth key in response").
Proof. reflexivity. Qed.

Example getAuthKey_refuses_null_body :
  fst (GetAll.getAuthKey (Mock.hub (fun _ => Response 200 (Json JNull)) []) start)
  = Throw (Error "Failed to get auth key: Cannot read properties of null (reading 'authkey')").
Proof. reflexivity. Qed.

(** ** [Promise.all] *)

Section PromiseAllFacts.

Context {A : Type}.
Implicit Types (ps : list (Result A)) (order : list nat).

Lemma first_rejection_app order order' ps :
  first_rejection (order ++ order') ps =
  match first_rejection order ps with
  | Some e => Some e
  | None => first_rejection order' ps
  end.
Proof.
  induction order as [ | i rest IH]; simpl; [ reflexivity | ].
  destruct (nth_error ps i) as [[a | e | ] | ]; auto.
Qed.

Lemma first_rejection_is_rejected order ps e :
  first_rejection order ps = Some e -> In (Throw e) ps.
Proof.
  induction order as [ | i rest IH]; simpl; [ discriminate | ].
  destruct (nth_error ps i) as [[a | e' | ] | ] eqn:Hi; auto.
  intros [= <-]. eapply nth_error_In, Hi.
Qed.

Lemma first_rejection_found order ps i e :
  In i order -> nth_error ps i = Some (Throw e) ->
  exists e', first_rejection order ps = Some e'.
Proof.
  induction order as [ | j rest IH]; simpl; [ tauto | ].
  intros [-> | Hin] Hi.
  - rewrite Hi. eauto.
  - destruct (nth_error ps j) as [[a | e' | ] | ]; eauto.
Qed.

Lemma first_rejection_none_of_ok order (vs : list A) :
  first_rejection order (map Ok vs) = None.
Proof.
  induction order as [ | i rest IH]; simpl; [ reflexivity | ].
  rewrite nth_error_map. destruct (nth_error vs i); exact IH.
Qed.

Lemma fulfilled_map_Ok (vs : list A) : fulfilled (map Ok vs) = vs.
Proof. induction vs as [ | v vs IH]; simpl; congruence. Qed.

Lemma none_pending_of_ok (vs : list A) : existsb is_pending (map Ok vs) = false.
Proof. induction vs as [ | v vs IH]; simpl; auto. Qed.

(** When every promise fulfils, all the values come back, by position,
    whatever the completion order. *)
Lemma Promise_all_fulfils order (vs : list A) :
  Promise_all order (map Ok vs) = Ok vs.
Proof.
  unfold Promise_all.
  rewrite first_rejection_none_of_ok, none_pending_of_ok, fulfilled_map_Ok.
  reflexivity.
Qed.

(** When some promise rejects, [Promise.all] rejects with the reason of
    one of them, and no value comes back. *)
Lemma Promise_all_rejects order ps :
  existsb is_rejected ps = true ->
  exists e, In (Throw e) ps /\ Promise_all order ps = Throw e.
Proof.
  intros Hex. apply existsb_exists in Hex as (r & Hin & Hr).
  destruct r as [a | e | ]; [ discriminate | | discriminate ].
  apply In_nth_error in Hin as (i & Hi).
  assert (Hlt : (i < List.length ps)%nat)
    by (apply nth_error_Some; congruence).
  destruct (first_rejection_found (order ++ seq 0 (List.length ps)) ps i e) as (e' & He').
  - apply in_or_app. right. apply in_seq. lia.
  - exact Hi.
  - exists e'. split; [ eapply first_rejection_is_rejected, He' | ].
    unfold Promise_all. rewrite He'. reflexivity.
Qed.

(** The reason is that of the promise that rejects first. *)
Lemma Promise_all_first_to_fail before i after ps e :
  (forall j, In j before -> forall e', nth_error ps j <> Some (Throw e')) ->
  nth_error ps i = Some (Throw e) ->
  Promise_all (before ++ i :: after) ps = Throw e.
Proof.
  intros Hbefore Hi. unfold Promise_all.
  rewrite <- app_assoc, first_rejection_app.
  assert (Hnone : first_rejection before ps = None).
  { clear Hi. induction before as [ | j rest IH]; simpl; [ reflexivity | ].
    destruct (nth_error ps j) as [[a | e' | ] | ] eqn:Hj.
    - apply IH. intros k Hk. apply Hbefore. now right.
    - exfalso. apply (Hbefore j (or_introl eq_refl) e'). exact Hj.
    - apply IH. intros k Hk. apply Hbefore. now right.
    - apply IH. intros k Hk. apply Hbefore. now right. }
  rewrite Hnone. simpl. rewrite Hi. reflexivity.
Qed.

End PromiseAllFacts.

(** ** The requests of a whole run *)

Lemma issue_issue_all (o : RequestOptions) (os : list RequestOptions) (w : World) :
  issue_all os (issue o w) = issue_all (o :: os) w.
Proof.
  unfold issue_all, issue. simpl. rewrite <- app_assoc. reflexivity.
Qed.

Lemma issue_all_nil (w : World) : issue_all [] w = w.
Proof. destruct w. unfold issue_all. simpl. rewrite app_nil_r. reflexivity. Qed.

(** Tasks that each issue one request and touch nothing else: spawning
    them issues all the requests, in order, whether or not some of them
    fail, and yields one promise per task. *)
Lemma spawn_all_run {A} (tasks : list (M A)) (os : list RequestOptions) :
  Forall2 (fun t o => forall w, snd (t w) = issue o w) tasks os ->
  forall w,
    snd (GetAll.spawn_all tasks w) = issue_all os w /\
    exists ps, fst (GetAll.spawn_all tasks w) = Ok ps /\
               List.length ps = List.length tasks.
Proof.
  induction 1 as [ | t o tasks os Ht _ IH]; intros w; simpl.
  - rewrite issue_all_nil. split; [ reflexivity | ]. exists []. auto.
  - unfold bind, spawn. specialize (Ht w).
    destruct (t w) as [r w']. simpl in Ht. subst w'.
    destruct (IH (issue o w)) as (Hsnd & ps & Hfst & Hlen).
    destruct (GetAll.spawn_all tasks (issue o w)) as [rs w'']. simpl in *.
    subst rs w''. simpl. rewrite issue_issue_all. split; [ reflexivity | ].
    exists (r :: ps). simpl. auto.
Qed.

Section Batch.

Variable env : Env.

Lemma batch_issues_its_requests key :
  Forall2 (fun t o => forall w, snd (t w) = issue o w)
          (map (fun f => f key) (GetAll.batch env)) (batch_requests key).
Proof.
  repeat constructor; intros w; run_keyed.
Qed.

Lemma spawn_batch_run key w :
  GetAll.spawn_all (map (fun f => f key) (GetAll.batch env)) w
  = (Ok (dispatched env key w), issue_all (batch_requests key) w) /\
  List.length (dispatched env key w) = 7%nat.
Proof.
  destruct (spawn_all_run _ _ (batch_issues_its_requests key) w)
    as (Hsnd & ps & Hfst & Hlen).
  unfold dispatched. rewrite Hfst.
  destruct (GetAll.spawn_all _ w) as [r w']. simpl in *. subst.
  split; [ reflexivity | exact Hlen ].
Qed.

Lemma gather_run key w :
  GetAll.gather env key w
  = (Promise_all (completion env) (dispatched env key w),
     issue_all (batch_requests key) w).
Proof.
  unfold GetAll.gather, bind. destruct (spawn_batch_run key w) as [-> _].
  reflexivity.
Qed.

End Batch.

(** The promises of the batch do not depend on the completion order. *)
Lemma dispatched_with_completion order env key w :
  dispatched (with_completion order env) key w = dispatched env key w.
Proof. reflexivity. Qed.

Section MainRuns.

Variable env : Env.

Lemma GetDevices_main_login_fails w e :
  fst (GetDevices.getAuthKey env w) = Throw e ->
  GetDevices.main env w = (Ok (Exited 1), issue login_GetDevices w).
Proof.
  unfold GetDevices.main, try_catch, bind.
  rewrite GetDevices_getAuthKey_run. cbn [fst]. intros ->. reflexivity.
Qed.

Lemma GetDevices_main_read_fails w key e :
  fst (GetDevices.getAuthKey env w) = Ok key ->
  fst (GetDevices.getSensors env key (issue login_GetDevices w)) = Throw e ->
  GetDevices.main env w
  = (Ok (Exited 1), issue_all [login_GetDevices; keyed_GetDevices "/sensors" key] w).
Proof.
  unfold GetDevices.main, try_catch, bind.
  rewrite GetDevices_getAuthKey_run. cbn [fst]. intros ->.
  rewrite GetDevices_getSensors_run. cbn [fst]. intros ->.
  unfold ret. f_equal. unfold issue, issue_all. simpl.
  rewrite <- app_assoc. reflexivity.
Qed.

Lemma GetDevices_main_requests w :
  requests (snd (GetDevices.main env w)) =
  (requests w ++
   login_GetDevices ::
   match fst (GetDevices.getAuthKey env w) with
   | Ok key => [keyed_GetDevices "/sensors" key]
   | _ => []
   end)%list.
Proof.
  unfold GetDevices.main, try_catch, bind.
  rewrite GetDevices_getAuthKey_run. cbn [fst].
  destruct (rethrow _ _) as [key | e | ]; [ | reflexivity | reflexivity ].
  rewrite GetDevices_getSensors_run.
  destruct (rethrow _ _) as [devices | e | ]; unfold lift;
    [ destruct (get_prop devices "devices") | | ]; simpl;
    try (unfold writeFileSync, Date_toISOString; simpl;
         match goal with
         | |- context [disk env ?f] => destruct (disk env f)
         end; simpl);
    rewrite <- app_assoc; reflexivity.
Qed.

Lemma GetAll_main_login_fails w e :
  fst (GetAll.getAuthKey env w) = Throw e ->
  GetAll.main env w = (Ok (Exited 1), issue login_GetAll w).
Proof.
  unfold GetAll.main, try_catch, bind.
  rewrite GetAll_getAuthKey_run. cbn [fst]. intros ->. reflexivity.
Qed.

Lemma GetAll_main_batch_fails w key e :
  fst (GetAll.getAuthKey env w) = Ok key ->
  fst (GetAll.gather env key (issue login_GetAll w)) = Throw e ->
  GetAll.main env w
  = (Ok (Exited 1), issue_all (login_GetAll :: batch_requests key) w).
Proof.
  unfold GetAll.main, try_catch, bind.
  rewrite GetAll_getAuthKey_run. cbn [fst]. intros ->.
  rewrite gather_run. cbn [fst]. intros ->.
  rewrite issue_issue_all. reflexivity.
Qed.

Lemma GetAll_main_requests w :
  requests (snd (GetAll.main env w)) =
  (requests w ++
   login_GetAll ::
   match fst (GetAll.getAuthKey env w) with
   | Ok key => batch_requests key
   | _ => []
   end)%list.
Proof.
  unfold GetAll.main, try_catch, bind.
  rewrite GetAll_getAuthKey_run. cbn [fst].
  destruct (rethrow _ _) as [key | e | ]; [ | reflexivity | reflexivity ].
  rewrite gather_run, issue_issue_all.
  destruct (Promise_all _ _) as [results | e | ]; [ | reflexivity | reflexivity ].
  repeat (destruct results as [ | ? results]; try reflexivity).
  unfold lift.
  repeat match goal with
         | |- context [get_prop ?v ?k] => destruct (get_prop v k)
         end; try reflexivity.
  unfold writeFileSync, Date_toISOString. simpl.
  match goal with
  | |- context [disk env ?f] => destruct (disk env f)
  end; reflexivity.
Qed.

End MainRuns.

(** ** The read functions *)

Section Reads.

Variable env : Env.

Lemma reads_GetDevices_run path prefix read :
  In (path, prefix, read) (reads_GetDevices env) ->
  forall key w,
    read key w =
    (rethrow prefix (settle (transport env (requests w) (keyed_GetDevices path key))),
     issue (keyed_GetDevices path key) w).
Proof.
  intros [[= <- <- <-] | [[= <- <- <-] | []]] key w.
  - apply GetDevices_getDevices_run.
  - apply GetDevices_getSensors_run.
Qed.

Lemma reads_GetAll_run path prefix read :
  In (path, prefix, read) (reads_GetAll env) ->
  forall key w,
    read key w =
    (rethrow prefix (settle (transport env (requests w) (keyed_GetAll path None key))),
     issue (keyed_GetAll path None key) w).
Proof.
  intros Hin key w. simpl in Hin.
  repeat destruct Hin as [[= <- <- <-] | Hin]; try contradiction; run_keyed.
Qed.

Lemma reads_GetDevices_not_login path prefix read key :
  In (path, prefix, read) (reads_GetDevices env) ->
  is_login (keyed_GetDevices path key) = false.
Proof. intros [[= <- <- <-] | [[= <- <- <-] | []]]; reflexivity. Qed.

Lemma reads_GetAll_not_login path prefix read key :
  In (path, prefix, read) (reads_GetAll env) ->
  is_login (keyed_GetAll path None key) = false.
Proof.
  intros Hin. simpl in Hin.
  repeat destruct Hin as [[= <- <- <-] | Hin]; try contradiction; reflexivity.
Qed.

End Reads.

Lemma logins_issue_all (os : list RequestOptions) :
  logins (issue_all os start) = List.length (filter is_login os).
Proof. reflexivity. Qed.

Lemma logins_GetDevices_main env : logins (snd (GetDevices.main env start)) = 1%nat.
Proof.
  unfold logins. rewrite GetDevices_main_requests. simpl.
  destruct (fst (GetDevices.getAuthKey env start)); reflexivity.
Qed.

Lemma logins_GetAll_main env : logins (snd (GetAll.main env start)) = 1%nat.
Proof.
  unfold logins. rewrite GetAll_main_requests. simpl.
  destruct (fst (GetAll.getAuthKey env start)); reflexivity.
Qed.

(** ** No re-authentication, no replay *)

Lemma paths_GetDevices_main env :
  NoDup (map path (requests (snd (GetDevices.main env start)))).
Proof.
  rewrite GetDevices_main_requests.
  destruct (fst (GetDevices.getAuthKey env start)) as [key | e | ]; vm_compute;
    repeat constructor; simpl; intuition discriminate.
Qed.

Lemma paths_GetAll_main env :
  NoDup (map path (requests (snd (GetAll.main env start)))).
Proof.
  rewrite GetAll_main_requests.
  destruct (fst (GetAll.getAuthKey env start)) as [key | e | ]; vm_compute;
    repeat constructor; simpl; intuition discriminate.
Qed.

(** C1 (as stated, fails): a hub whose login yields the key [K1] and that
    answers every call made with it [401 Unauthorized].  The read of the
    first script fails, [main] ends the process with status 1, and the
    whole run has made one login and one request for the sensors: no
    second login and no replay, where the specification asks for two
    logins.  The
    second script behaves the same way. *)
Lemma expired_session_is_not_renewed :
  fst (GetDevices.getSensors Mock.always_expired (JStr "K1")
         (issue login_GetDevices start))
    = Throw (Error "Failed to get sensors: Invalid JSON response: Unauthorized") /\
  GetDevices.main Mock.always_expired start
    = (Ok (Exited 1),
       issue_all [login_GetDevices; keyed_GetDevices "/sensors" (JStr "K1")] start) /\
  logins (snd (GetDevices.main Mock.always_expired start)) = 1%nat /\
  logins (snd (GetDevices.main Mock.always_expired start)) <> 2%nat /\
  attempts "/cws/api/sensors" (snd (GetDevices.main Mock.always_expired start)) = 1%nat /\
  fst (GetAll.main Mock.always_expired start) = Ok (Exited 1) /\
  logins (snd (GetAll.main Mock.always_expired start)) = 1%nat /\
  attempts "/cws/api/devices" (snd (GetAll.main Mock.always_expired start)) = 1%nat.
Proof. vm_compute. repeat split; discriminate. Qed.

(** C1 (amended): a call that fails, for whatever reason (an
    authentication failure included), is neither followed by a
    re-authentication nor replayed; its error propagates at once.  Every
    run of either script makes exactly one login and requests no path
    twice; every read issues exactly one request, which is not a login,
    whether it fails or not; and when the read of the first script, or
    the batch of the second, fails, [main] ends the process with status 1
    having issued the login and the requests of that one attempt only.
    So a session that is always reported expired costs one login, and
    there is no loop. *)
Theorem failed_call_is_not_retried (env : Env) :
  logins (snd (GetDevices.main env start)) = 1%nat /\
  logins (snd (GetAll.main env start)) = 1%nat /\
  NoDup (map path (requests (snd (GetDevices.main env start)))) /\
  NoDup (map path (requests (snd (GetAll.main env start)))) /\
  (forall key path prefix read,
      In (path, prefix, read) (reads_GetDevices env) ->
      is_login (keyed_GetDevices path key) = false /\
      forall w, snd (read key w) = issue (keyed_GetDevices path key) w) /\
  (forall key path prefix read,
      In (path, prefix, read) (reads_GetAll env) ->
      is_login (keyed_GetAll path None key) = false /\
      forall w, snd (read key w) = issue (keyed_GetAll path None key) w) /\
  (forall key e,
      fst (GetDevices.getAuthKey env start) = Ok key ->
      fst (GetDevices.getSensors env key (issue login_GetDevices start)) = Throw e ->
      GetDevices.main env start
      = (Ok (Exited 1),
         issue_all [login_GetDevices; keyed_GetDevices "/sensors" key] start)) /\
  (forall key e,
      fst (GetAll.getAuthKey env start) = Ok key ->
      fst (GetAll.gather env key (issue login_GetAll start)) = Throw e ->
      GetAll.main env start
      = (Ok (Exited 1), issue_all (login_GetAll :: batch_requests key) start)).
Proof.
  split; [ apply logins_GetDevices_main | ].
  split; [ apply logins_GetAll_main | ].
  split; [ apply paths_GetDevices_main | ].
  split; [ apply paths_GetAll_main | ].
  split; [ | split; [ | split ] ].
  - intros key path prefix read Hin. split.
    + eapply reads_GetDevices_not_login, Hin.
    + intros w. rewrite (reads_GetDevices_run env _ _ _ Hin). reflexivity.
  - intros key path prefix read Hin. split.
    + eapply reads_GetAll_not_login, Hin.
    + intros w. rewrite (reads_GetAll_run env _ _ _ Hin). reflexivity.
  - intros key e. apply GetDevices_main_read_fails.
  - intros key e. apply GetAll_main_batch_fails.
Qed.

Lemma failed_read_ends_the_run_on_expired_hub :
  GetDevices.main Mock.always_expired start
  = (Ok (Exited 1),
     issue_all [login_GetDevices; keyed_GetDevices "/sensors" (JStr "K1")] start).
Proof.
  destruct (failed_call_is_not_retried Mock.always_expired)
    as (_ & _ & _ & _ & _ & _ & Hread & _).
  apply (Hread (JStr "K1")
               (Error "Failed to get sensors: Invalid JSON response: Unauthorized"));
    reflexivity.
Defined.

(** ** Headers *)



(** ** Login, then a read *)

(** C6: when the login succeeds with a key, and the hub answers the read
    made with that key with a JSON body, the login followed at once by
    any read function succeeds with that body; the read carries the key
    just obtained, the two requests are the only ones made, and exactly
    one of them is a login.  This holds for the two reads of the first
    script and the six of the second. *)
Theorem read_after_login_makes_no_second_login (env : Env) :
  (forall key path prefix read status v,
      In (path, prefix, read) (reads_GetDevices env) ->
      fst (GetDevices.getAuthKey env start) = Ok key ->
      transport env [login_GetDevices] (keyed_GetDevices path key)
      = Response status (Json v) ->
      (authKey <- GetDevices.getAuthKey env ;; read authKey) start
      = (Ok v, issue_all [login_GetDevices; keyed_GetDevices path key] start) /\
      carries_key key (keyed_GetDevices path key) /\
      logins (issue_all [login_GetDevices; keyed_GetDevices path key] start) = 1%nat) /\
  (forall key path prefix read status v,
      In (path, prefix, read) (reads_GetAll env) ->
      fst (GetAll.getAuthKey env start) = Ok key ->
      transport env [login_GetAll] (keyed_GetAll path None key)
      = Response status (Json v) ->
      (authKey <- GetAll.getAuthKey env ;; read authKey) start
      = (Ok v, issue_all [login_GetAll; keyed_GetAll path None key] start) /\
      carries_key key (keyed_GetAll path None key) /\
      logins (issue_all [login_GetAll; keyed_GetAll path None key] start) = 1%nat) /\
  logins (snd (GetDevices.main env start)) = 1%nat /\
  logins (snd (GetAll.main env start)) = 1%nat.
Proof.
  split; [ | split; [ | split ] ].
  - intros key path prefix read status v Hin Hlogin Hread.
    split; [ | split; [ reflexivity | ] ].
    + unfold bind. rewrite GetDevices_getAuthKey_run in *. cbn [fst] in Hlogin.
      rewrite Hlogin, (reads_GetDevices_run env _ _ _ Hin).
      change (requests (issue login_GetDevices start)) with [login_GetDevices].
      rewrite Hread. reflexivity.
    + rewrite logins_issue_all. simpl.
      rewrite (reads_GetDevices_not_login env _ _ _ key Hin). reflexivity.
  - intros key path prefix read status v Hin Hlogin Hread.
    split; [ | split; [ reflexivity | ] ].
    + unfold bind. rewrite GetAll_getAuthKey_run in *. cbn [fst] in Hlogin.
      rewrite Hlogin, (reads_GetAll_run env _ _ _ Hin).
      change (requests (issue login_GetAll start)) with [login_GetAll].
      rewrite Hread. reflexivity.
    + rewrite logins_issue_all. simpl.
      rewrite (reads_GetAll_not_login env _ _ _ key Hin). reflexivity.
  - apply logins_GetDevices_main.
  - apply logins_GetAll_main.
Qed.

Lemma read_after_login_on_healthy_hub :
  (authKey <- GetAll.getAuthKey Mock.healthy ;; GetAll.getRooms Mock.healthy authKey) start
  = (Ok (JObj [("devices", JArr [])]),
     issue_all [login_GetAll; keyed_GetAll "/rooms" None (JStr "K1")] start) /\
  carries_key (JStr "K1") (keyed_GetAll "/rooms" None (JStr "K1")) /\
  logins (issue_all [login_GetAll; keyed_GetAll "/rooms" None (JStr "K1")] start) = 1%nat.
Proof.
  destruct (read_after_login_makes_no_second_login Mock.healthy) as (_ & Hall & _).
  apply (Hall (JStr "K1") "/rooms" "Failed to get rooms: "
              (GetAll.getRooms Mock.healthy) 200%Z (JObj [("devices", JArr [])])).
  - simpl. auto.
  - reflexivity.
  - reflexivity.
Defined.

(** ** The batch *)

(** C3 (as stated, fails): login works and six of the seven requests of
    the batch are answered, but the connection to the rooms endpoint is
    refused.  The batch rejects with the error of the rooms request, so
    none of the six other results reaches the caller: [main] ends the
    process with status 1 and writes no file. *)
Lemma one_failure_loses_the_whole_batch :
  dispatched Mock.rooms_down (JStr "K1") (issue login_GetAll start)
  = [Ok (JObj [("devices", JArr [])]);
     Ok (JObj [("devices", JArr [])]);
     Throw (Error "Failed to get rooms: connect ECONNREFUSED 10.1.1.40:443");
     Ok (JObj [("devices", JArr [])]);
     Ok (JObj [("devices", JArr [])]);
     Ok (JObj [("devices", JArr [])]);
     Ok (JObj [("devices", JArr [])])] /\
  fst (GetAll.gather Mock.rooms_down (JStr "K1") (issue login_GetAll start))
  = Throw (Error "Failed to get rooms: connect ECONNREFUSED 10.1.1.40:443") /\
  fst (GetAll.main Mock.rooms_down start) = Ok (Exited 1) /\
  files (snd (GetAll.main Mock.rooms_down start)) = [].
Proof. vm_compute. repeat split. Qed.

(** C3 (amended): the seven requests of the batch are all issued, in the
    order of the array, whatever happens to any of them.  When all seven
    succeed, the caller receives all seven results, in that same order,
    whatever the order in which the requests complete.  When at least
    one fails, the batch as a whole fails with the error of a failed
    request (the one that fails first in completion order) and none of
    the other results is returned; [main] then ends the process with
    status 1. *)
Theorem batch_returns_all_results_or_none (env : Env) (key : JValue) (w : World) :
  List.length (dispatched env key w) = 7%nat /\
  (forall order,
      snd (GetAll.gather (with_completion order env) key w)
      = issue_all (batch_requests key) w) /\
  (forall vs,
      dispatched env key w = map Ok vs ->
      forall order,
        fst (GetAll.gather (with_completion order env) key w) = Ok vs) /\
  (existsb is_rejected (dispatched env key w) = true ->
   forall order,
     exists e,
       In (Throw e) (dispatched env key w) /\
       fst (GetAll.gather (with_completion order env) key w) = Throw e) /\
  (forall before i after e,
      (forall j, In j before ->
                 forall e', nth_error (dispatched env key w) j <> Some (Throw e')) ->
      nth_error (dispatched env key w) i = Some (Throw e) ->
      fst (GetAll.gather (with_completion (before ++ i :: after) env) key w) = Throw e) /\
  (forall e,
      w = issue login_GetAll start ->
      fst (GetAll.getAuthKey env start) = Ok key ->
      fst (GetAll.gather env key w) = Throw e ->
      GetAll.main env start
      = (Ok (Exited 1), issue_all (login_GetAll :: batch_requests key) start)).
Proof.
  split; [ apply spawn_batch_run | ].
  split; [ intros order; rewrite gather_run; reflexivity | ].
  split; [ | split; [ | split ] ].
  - intros vs Hvs order. rewrite gather_run. cbn [fst completion with_completion].
    rewrite dispatched_with_completion, Hvs. apply Promise_all_fulfils.
  - intros Hsome order. rewrite gather_run. cbn [fst completion with_completion].
    rewrite dispatched_with_completion. apply Promise_all_rejects, Hsome.
  - intros before i after e Hbefore Hi. rewrite gather_run.
    cbn [fst completion with_completion]. rewrite dispatched_with_completion.
    apply Promise_all_first_to_fail; assumption.
  - intros e -> Hkey Hfail. eapply GetAll_main_batch_fails; eassumption.
Qed.

(** On the healthy hub the seven results come back for the two opposite
    completion orders alike; with the rooms endpoint down and the
    requests completing last to first, the batch rejects with the error
    of the rooms request. *)
Lemma batch_on_healthy_hub :
  fst (GetAll.gather (with_completion [0; 1; 2; 3; 4; 5; 6]%nat Mock.healthy)
         (JStr "K1") start)
  = Ok (repeat (JObj [("devices", JArr [])]) 7) /\
  fst (GetAll.gather (with_completion [6; 5; 4; 3; 2; 1; 0]%nat Mock.healthy)
         (JStr "K1") start)
  = Ok (repeat (JObj [("devices", JArr [])]) 7) /\
  fst (GetAll.gather (with_completion ([6; 5; 4; 3] ++ 2 :: [1; 0])%list%nat Mock.rooms_down)
         (JStr "K1") start)
  = Throw (Error "Failed to get rooms: connect ECONNREFUSED 10.1.1.40:443").
Proof.
  destruct (batch_returns_all_results_or_none Mock.healthy (JStr "K1") start)
    as (_ & _ & Hall & _).
  destruct (batch_returns_all_results_or_none Mock.rooms_down (JStr "K1") start)
    as (_ & _ & _ & _ & Hfirst & _).
  split; [ apply Hall; reflexivity | ].
  split; [ apply Hall; reflexivity | ].
  apply Hfirst.
  - intros j [<- | [<- | [<- | [<- | []]]]] e'; discriminate.
  - reflexivity.
Defined.

(** ** Reads return the body as it is *)

Lemma rethrow_settle_json prefix status v :
  rethrow prefix (settle (Response status (Json v))) = Ok v.
Proof. reflexivity. Qed.

Lemma rethrow_settle_throw prefix o e :
  rethrow prefix (settle o) = Throw e ->
  exists cause,
    e = Error (prefix ++ message cause) /\
    (o = NetworkError cause \/
     exists status data,
       o = Response status (NotJson data) /\
       cause = Error ("Invalid JSON response: " ++ data)).
Proof.
  destruct (settle o) as [v | cause | ] eqn:Hsettle; simpl;
    [ discriminate | | discriminate ].
  intros [= <-]. exists cause. split; [ reflexivity | ].
  apply settle_throw, Hsettle.
Qed.

(** C5 (as stated, fails): the hub answers the devices request with a
    list whose element has no [id] and a [level] that is a string.  The
    read functions of both scripts return that document as it is, where
    the specification asks for a schema error. *)
Lemma malformed_devices_are_returned :
  get_prop (JObj [("name", JStr "Downlight"); ("level", JStr "high")]) "id" = Ok None /\
  get_prop (JObj [("name", JStr "Downlight"); ("level", JStr "high")]) "level"
  = Ok (Some (JStr "high")) /\
  fst (GetAll.getDevices Mock.malformed (JStr "K1") start)
  = Ok (JObj [("devices",
               JArr [JObj [("name", JStr "Downlight"); ("level", JStr "high")]])]) /\
  fst (GetDevices.getDevices Mock.malformed (JStr "K1") start)
  = Ok (JObj [("devices",
               JArr [JObj [("name", JStr "Downlight"); ("level", JStr "high")]])]).
Proof. repeat split. Qed.

(** C5 (amended): the read functions of both scripts validate nothing.
    Whenever the body of the response parses as JSON they return the
    parsed document unchanged, whatever fields it has or lacks; they fail
    only when the transport fails (a network error, or a body that is not
    JSON), and then with a plain [Error] whose message is the transport's
    message under the function's own prefix.  There is one error class:
    no schema error exists apart from the transport error. *)
Theorem reads_return_the_parsed_body_unchecked (env : Env) (key : JValue) (w : World) :
  (forall path prefix read,
      In (path, prefix, read) (reads_GetDevices env) ->
      (forall status v,
          transport env (requests w) (keyed_GetDevices path key)
          = Response status (Json v) ->
          fst (read key w) = Ok v) /\
      (forall e,
          fst (read key w) = Throw e ->
          name e = "Error" /\
          exists cause,
            e = Error (prefix ++ message cause) /\
            (transport env (requests w) (keyed_GetDevices path key) = NetworkError cause \/
             exists status data,
               transport env (requests w) (keyed_GetDevices path key)
               = Response status (NotJson data) /\
               cause = Error ("Invalid JSON response: " ++ data)))) /\
  (forall path prefix read,
      In (path, prefix, read) (reads_GetAll env) ->
      (forall status v,
          transport env (requests w) (keyed_GetAll path None key)
          = Response status (Json v) ->
          fst (read key w) = Ok v) /\
      (forall e,
          fst (read key w) = Throw e ->
          name e = "Error" /\
          exists cause,
            e = Error (prefix ++ message cause) /\
            (transport env (requests w) (keyed_GetAll path None key) = NetworkError cause \/
             exists status data,
               transport env (requests w) (keyed_GetAll path None key)
               = Response status (NotJson data) /\
               cause = Error ("Invalid JSON response: " ++ data)))).
Proof.
  split; intros path prefix read Hin.
  - rewrite (reads_GetDevices_run env _ _ _ Hin). cbn [fst]. split.
    + intros status v ->. apply rethrow_settle_json.
    + intros e He. apply rethrow_settle_throw in He as (cause & -> & Hcause).
      split; [ reflexivity | ]. exists cause. auto.
  - rewrite (reads_GetAll_run env _ _ _ Hin). cbn [fst]. split.
    + intros status v ->. apply rethrow_settle_json.
    + intros e He. apply rethrow_settle_throw in He as (cause & -> & Hcause).
      split; [ reflexivity | ]. exists cause. auto.
Qed.

Lemma sensors_returned_unchecked_on_malformed_hub :
  fst (GetAll.getSensors Mock.malformed (JStr "K1") start) = Ok Mock.malformed_devices.
Proof.
  destruct (reads_return_the_parsed_body_unchecked Mock.malformed (JStr "K1") start)
    as (_ & Hall).
  destruct (Hall "/sensors" "Failed to get sensors: " (GetAll.getSensors Mock.malformed))
    as (Hok & _).
  - simpl. auto.
  - apply (Hok 200%Z). reflexivity.
Defined.

(** ** Failures surface at once *)

Lemma surfaces_of_run env prefix o (m : M JValue) :
  (forall w, m w = (rethrow prefix (settle (transport env (requests w) o)), issue o w)) ->
  surfaces_at_once env prefix o m.
Proof.
  intros Hrun w. rewrite Hrun. cbn [fst snd].
  split; [ reflexivity | ]. split.
  - intros err ->. reflexivity.
  - intros status data ->. reflexivity.
Qed.

Lemma getAuthKey_surfaces env o (m : M JValue) :
  (forall w, m w = (rethrow "Failed to get auth key: "
                      (read_authkey (settle (transport env (requests w) o))),
                    issue o w)) ->
  surfaces_at_once env "Failed to get auth key: " o m.
Proof.
  intros Hrun w. rewrite Hrun. cbn [fst snd].
  split; [ reflexivity | ]. split.
  - intros err ->. reflexivity.
  - intros status data ->. reflexivity.
Qed.

Lemma read_authkey_falsy prefix status response :
  (forall key, get_prop response "authkey" = Ok (Some key) -> truthy key = false) ->
  (exists found, get_prop response "authkey" = Ok found) ->
  rethrow prefix (read_authkey (settle (Response status (Json response))))
  = Throw (Error (prefix ++ "No auth key in response")).
Proof.
  intros Hfalsy [found Hfound]. simpl. rewrite Hfound.
  destruct found as [key | ]; [ | reflexivity ].
  rewrite (Hfalsy key Hfound). reflexivity.
Qed.

(** C8 (as stated, fails), in two ways.  The hub answers the rooms
    request with a document that has no [rooms] field at all: [getRooms]
    returns it as a success and the whole run returns normally, so the
    unexpected schema is surfaced nowhere.  And on a hub that never
    answers the sensors request, [getSensors] neither returns nor throws
    and the run stays pending: the failure of the network is not
    surfaced either. *)
Lemma unexpected_schema_and_silence_are_not_surfaced :
  get_prop Mock.malformed_devices "rooms" = Ok None /\
  fst (GetAll.getRooms Mock.malformed (JStr "K1") start) = Ok Mock.malformed_devices /\
  fst (GetAll.main Mock.malformed start) = Ok Returned /\
  transport Mock.silent [] (keyed_GetAll "/sensors" None (JStr "K1")) = NoAnswer /\
  fst (GetAll.getSensors Mock.silent (JStr "K1") start) = Pending /\
  fst (GetDevices.main Mock.silent start) = Pending /\
  fst (GetAll.main Mock.silent start) = Pending.
Proof. repeat split. Qed.

Lemma pending_of_run env prefix o (m : M JValue) w :
  m w = (rethrow prefix (settle (transport env (requests w) o)), issue o w) ->
  (forall status v, transport env (requests w) o = Response status (Json v) ->
     m w = (Ok v, issue o w)) /\
  (transport env (requests w) o = NoAnswer -> m w = (Pending, issue o w)).
Proof.
  intros ->. split.
  - intros status v ->. reflexivity.
  - intros ->. reflexivity.
Qed.

(** C8 (amended): every failure that the code detects is surfaced by the
    function in which it occurs, at once, and nothing is retried.  Every
    function of either script that talks to the hub (the login, each
    read, the media command) issues exactly one request, whatever its
    outcome; a network error or a body that is not JSON makes it throw an
    [Error] that carries the transport's message under the function's own
    prefix; a login answer without a usable key makes [getAuthKey] throw
    [No auth key in response], again after that one request; and when the
    login fails, [main] ends the process with status 1 without any
    further request.  Two failures are not detected: a read returns every
    JSON document as it is, whatever its schema; and when a request never
    settles (the scripts set no timeout) the function that made it
    neither returns nor throws, after its one request. *)
Theorem detected_failures_surface_at_once_without_retry (env : Env) (key : JValue) :
  (forall path prefix read,
      In (path, prefix, read) (reads_GetDevices env) ->
      surfaces_at_once env prefix (keyed_GetDevices path key) (read key)) /\
  (forall path prefix read,
      In (path, prefix, read) (reads_GetAll env) ->
      surfaces_at_once env prefix (keyed_GetAll path None key) (read key)) /\
  surfaces_at_once env "Failed to get media rooms: "
    (keyed_GetAll "/mediarooms/1006/selectsource/53750" (Some "POST") key)
    (GetAll.playInLivingRoom env key) /\
  surfaces_at_once env "Failed to get auth key: " login_GetDevices
    (GetDevices.getAuthKey env) /\
  surfaces_at_once env "Failed to get auth key: " login_GetAll
    (GetAll.getAuthKey env) /\
  (forall w status response,
      (exists found, get_prop response "authkey" = Ok found) ->
      (forall k, get_prop response "authkey" = Ok (Some k) -> truthy k = false) ->
      (transport env (requests w) login_GetDevices = Response status (Json response) ->
       GetDevices.getAuthKey env w
       = (Throw (Error "Failed to get auth key: No auth key in response"),
          issue login_GetDevices w)) /\
      (transport env (requests w) login_GetAll = Response status (Json response) ->
       GetAll.getAuthKey env w
       = (Throw (Error "Failed to get auth key: No auth key in response"),
          issue login_GetAll w))) /\
  (forall e,
      fst (GetDevices.getAuthKey env start) = Throw e ->
      GetDevices.main env start = (Ok (Exited 1), issue login_GetDevices start)) /\
  (forall e,
      fst (GetAll.getAuthKey env start) = Throw e ->
      GetAll.main env start = (Ok (Exited 1), issue login_GetAll start)) /\
  (forall path prefix read w,
      In (path, prefix, read) (reads_GetDevices env) ->
      (forall status v,
          transport env (requests w) (keyed_GetDevices path key) = Response status (Json v) ->
          read key w = (Ok v, issue (keyed_GetDevices path key) w)) /\
      (transport env (requests w) (keyed_GetDevices path key) = NoAnswer ->
       read key w = (Pending, issue (keyed_GetDevices path key) w))) /\
  (forall path prefix read w,
      In (path, prefix, read) (reads_GetAll env) ->
      (forall status v,
          transport env (requests w) (keyed_GetAll path None key) = Response status (Json v) ->
          read key w = (Ok v, issue (keyed_GetAll path None key) w)) /\
      (transport env (requests w) (keyed_GetAll path None key) = NoAnswer ->
       read key w = (Pending, issue (keyed_GetAll path None key) w))) /\
  (forall w,
      (transport env (requests w) login_GetDevices = NoAnswer ->
       GetDevices.getAuthKey env w = (Pending, issue login_GetDevices w)) /\
      (transport env (requests w) login_GetAll = NoAnswer ->
       GetAll.getAuthKey env w = (Pending, issue login_GetAll w))).
Proof.
  split; [ | split; [ | split; [ | split; [ | split; [ | split; [ | split;
    [ | split; [ | split; [ | split ] ] ] ] ] ] ] ] ].
  - intros path prefix read Hin. apply surfaces_of_run.
    intros w. apply (reads_GetDevices_run env _ _ _ Hin).
  - intros path prefix read Hin. apply surfaces_of_run.
    intros w. apply (reads_GetAll_run env _ _ _ Hin).
  - apply surfaces_of_run. intros w. apply GetAll_playInLivingRoom_run.
  - apply getAuthKey_surfaces. intros w. apply GetDevices_getAuthKey_run.
  - apply getAuthKey_surfaces. intros w. apply GetAll_getAuthKey_run.
  - intros w status response Hfound Hfalsy. split; intros Hanswer.
    + rewrite GetDevices_getAuthKey_run, Hanswer.
      rewrite (read_authkey_falsy _ _ _ Hfalsy Hfound). reflexivity.
    + rewrite GetAll_getAuthKey_run, Hanswer.
      rewrite (read_authkey_falsy _ _ _ Hfalsy Hfound). reflexivity.
  - intros e. apply GetDevices_main_login_fails.
  - intros e. apply GetAll_main_login_fails.
  - intros path prefix read w Hin.
    apply (pending_of_run env prefix), (reads_GetDevices_run env _ _ _ Hin).
  - intros path prefix read w Hin.
    apply (pending_of_run env prefix), (reads_GetAll_run env _ _ _ Hin).
  - intros w. split; intros Hsilent.
    + rewrite GetDevices_getAuthKey_run, Hsilent. reflexivity.
    + rewrite GetAll_getAuthKey_run, Hsilent. reflexivity.
Qed.

(** On the hub that answers [401 Unauthorized], the sensors read throws
    after its single request. *)
Lemma sensors_failure_surfaces_on_expired_hub :
  snd (GetAll.getSensors Mock.always_expired (JStr "K1") start)
  = issue (keyed_GetAll "/sensors" None (JStr "K1")) start /\
  fst (GetAll.getSensors Mock.always_expired (JStr "K1") start)
  = Throw (Error "Failed to get sensors: Invalid JSON response: Unauthorized").
Proof.
  destruct (detected_failures_surface_at_once_without_retry Mock.always_expired (JStr "K1"))
    as (_ & Hall & _).
  destruct (Hall "/sensors" "Failed to get sensors: "
                 (GetAll.getSensors Mock.always_expired)) with (w := start)
    as (Hsnd & _ & Hbody).
  - simpl. auto.
  - split; [ exact Hsnd | ].
    apply (Hbody 401%Z "Unauthorized"). reflexivity.
Defined.

(** ** The session client of the specification *)

Section SetLightLevels.

Import SessionClient.

Variable hub : Call -> Result JValue.

Lemma find_out_of_range requests r :
  In r requests -> level_in_range r = false ->
  exists r', find (fun r => negb (level_in_range r)) requests = Some r' /\
             In r' requests /\ level_in_range r' = false.
Proof.
  intros Hin Hr.
  destruct (find (fun r => negb (level_in_range r)) requests) as [r' | ] eqn:Hfind.
  - apply find_some in Hfind as (Hin' & Hneg).
    exists r'. repeat split; auto. now apply negb_true_iff.
  - apply (find_none _ _ Hfind) in Hin. rewrite Hr in Hin. discriminate.
Qed.

Lemma level_out_of_range r :
  (level r < 0 \/ 65535 < level r)%Z -> level_in_range r = false.
Proof.
  intros H. unfold level_in_range. apply andb_false_iff.
  destruct H; [ left | right ]; apply Z.leb_gt; assumption.
Qed.

End SetLightLevels.

(** C4: when some element of the sequence has a level outside
    [0, 65535], [setLightLevels] fails with a [ValidationError] that names
    the id of an element whose level is out of range (the first one), and
    the list of network calls is what it was: no call is made. *)
Theorem setLightLevels_rejects_level_out_of_range
    (hub : SessionClient.Call -> Result JValue) (key : JValue)
    (requests : list SessionClient.CommandRequest) (calls : list SessionClient.Call)
    (r : SessionClient.CommandRequest) :
  In r requests ->
  (SessionClient.level r < 0 \/ 65535 < SessionClient.level r)%Z ->
  exists offender,
    In offender requests /\
    (SessionClient.level offender < 0 \/ 65535 < SessionClient.level offender)%Z /\
    SessionClient.setLightLevels hub key requests calls
    = (inl (SessionClient.ValidationError "setLightLevels" (SessionClient.id offender)),
       calls).
Proof.
  intros Hin Hlevel.
  destruct (find_out_of_range requests r Hin (level_out_of_range r Hlevel))
    as (offender & Hfind & Hin' & Hout).
  exists offender. split; [ exact Hin' | ]. split.
  - unfold SessionClient.level_in_range in Hout.
    apply andb_false_iff in Hout as [H | H]; apply Z.leb_gt in H; auto.
  - unfold SessionClient.setLightLevels. rewrite Hfind. reflexivity.
Qed.

Lemma setLightLevels_rejects_level_70000 :
  exists offender,
    In offender [SessionClient.mkCommand 10 65535 0; SessionClient.mkCommand 12 70000 500] /\
    (SessionClient.level offender < 0 \/ 65535 < SessionClient.level offender)%Z /\
    SessionClient.setLightLevels Mock.accepting (JStr "K1")
      [SessionClient.mkCommand 10 65535 0; SessionClient.mkCommand 12 70000 500] []
    = (inl (SessionClient.ValidationError "setLightLevels" (SessionClient.id offender)), []).
Proof.
  apply (setLightLevels_rejects_level_out_of_range Mock.accepting (JStr "K1") _ []
           (SessionClient.mkCommand 12 70000 500)).
  - simpl. auto.
  - right. simpl. lia.
Defined.

(** A batch within range goes through with one call. *)
Example setLightLevels_in_range :
  SessionClient.setLightLevels Mock.accepting (JStr "K1")
    [SessionClient.mkCommand 10 65535 0; SessionClient.mkCommand 12 0 500] []
  = (inr (JObj [("status", JStr "success")]),
     [SessionClient.mkCall (JStr "K1")
        [SessionClient.mkCommand 10 65535 0; SessionClient.mkCommand 12 0 500]]).
Proof. reflexivity. Qed.

Example setLightLevels_names_id_12 :
  SessionClient.setLightLevels Mock.accepting (JStr "K1")
    [SessionClient.mkCommand 10 65535 0; SessionClient.mkCommand 12 70000 500;
     SessionClient.mkCommand 14 (-1) 0] []
  = (inl (SessionClient.ValidationError "setLightLevels" 12), []).
Proof. reflexivity. Qed.

(** * Further properties of the scripts *)

(** ** File names *)

Lemma replace_colon_dot_length s :
  String.length (replace_colon_dot s) = String.length s.
Proof. induction s as [ | c s IH]; simpl; congruence. Qed.

Lemma replace_colon_dot_clean s :
  string_forall (fun c => negb (is_colon_or_dot c)) (replace_colon_dot s) = true.
Proof.
  induction s as [ | c s IH]; simpl; [ reflexivity | ].
  rewrite IH, andb_true_r. fold (is_colon_or_dot c).
  destruct (is_colon_or_dot c) eqn:Hc; [ reflexivity | ].
  rewrite Hc. reflexivity.
Qed.

Lemma replace_colon_dot_fixed s :
  string_forall (fun c => negb (is_colon_or_dot c)) s = true ->
  replace_colon_dot s = s.
Proof.
  induction s as [ | c s IH]; simpl; [ reflexivity | ].
  intros H. apply andb_true_iff in H as [Hc Hs].
  fold (is_colon_or_dot c). apply negb_true_iff in Hc. rewrite Hc, (IH Hs).
  reflexivity.
Qed.

(** X1: the rewriting of the timestamp for the file name,
    [replace(/[:.]/g, '-')], keeps the length, leaves no colon and no dot
    in the result, changes nothing in a text that has neither, and so
    does nothing when applied a second time. *)
Theorem replace_colon_dot_makes_a_clean_name (s : string) :
  String.length (replace_colon_dot s) = String.length s /\
  string_forall (fun c => negb (is_colon_or_dot c)) (replace_colon_dot s) = true /\
  (string_forall (fun c => negb (is_colon_or_dot c)) s = true ->
   replace_colon_dot s = s) /\
  replace_colon_dot (replace_colon_dot s) = replace_colon_dot s.
Proof.
  split; [ apply replace_colon_dot_length | ].
  split; [ apply replace_colon_dot_clean | ].
  split; [ apply replace_colon_dot_fixed | ].
  apply replace_colon_dot_fixed, replace_colon_dot_clean.
Qed.

Example replace_colon_dot_on_a_timestamp :
  replace_colon_dot "2025-01-01T10:20:30.456Z" = "2025-01-01T10-20-30-456Z".
Proof. reflexivity. Qed.

(** ** Where the requests go *)

Lemma string_forall_app f a b :
  string_forall f (a ++ b) = string_forall f a && string_forall f b.
Proof.
  induction a as [ | c a IH]; simpl; [ reflexivity | ].
  rewrite IH. apply andb_assoc.
Qed.

Lemma string_forall_impl (f g : ascii -> bool) s :
  (forall c, f c = true -> g c = true) ->
  string_forall f s = true -> string_forall g s = true.
Proof.
  intros Hfg. induction s as [ | c s IH]; simpl; [ reflexivity | ].
  intros H. apply andb_true_iff in H as [Hc Hs].
  rewrite (Hfg c Hc), (IH Hs). reflexivity.
Qed.

Lemma cut_absent c s :
  string_forall (fun x => negb (Ascii.eqb x c)) s = true ->
  Url.cut c s = (s, None).
Proof.
  induction s as [ | a s IH]; simpl; [ reflexivity | ].
  intros H. apply andb_true_iff in H as [Ha Hs].
  apply negb_true_iff in Ha. rewrite Ha, (IH Hs). reflexivity.
Qed.

Lemma cut_at c p q :
  string_forall (fun x => negb (Ascii.eqb x c)) p = true ->
  Url.cut c (p ++ String c q) = (p, Some q).
Proof.
  induction p as [ | a p IH]; simpl.
  - intros _. rewrite Ascii.eqb_refl. reflexivity.
  - intros H. apply andb_true_iff in H as [Ha Hp].
    apply negb_true_iff in Ha. rewrite Ha, (IH Hp). reflexivity.
Qed.

Lemma plain_is_not_question c :
  plain_path_char c = true -> negb (Ascii.eqb c "?") = true.
Proof. destruct c as [[] [] [] [] [] [] [] []]; vm_compute; congruence. Qed.

Lemma plain_is_not_hash c :
  plain_path_char c = true -> negb (Ascii.eqb c "#") = true.
Proof. destruct c as [[] [] [] [] [] [] [] []]; vm_compute; congruence. Qed.

Lemma pathname_of_plain p :
  string_forall plain_path_char p = true ->
  Url.pathname (Url.parse ("https://10.1.1.40/cws/api" ++ p)) = "/cws/api" ++ p.
Proof.
  intros Hp. unfold Url.parse. cbn -[Url.cut string_forall].
  change (Url.cut "/" _) with ("10.1.1.40", Some ("cws/api" ++ p)).
  cbn -[Url.cut string_forall append].
  rewrite (cut_absent "?" ("cws/api" ++ p)).
  - cbn [fst]. rewrite (cut_absent "#" ("cws/api" ++ p)); [ reflexivity | ].
    rewrite string_forall_app. simpl.
    apply (string_forall_impl _ _ _ plain_is_not_hash Hp).
  - rewrite string_forall_app. simpl.
    apply (string_forall_impl _ _ _ plain_is_not_question Hp).
Qed.

Lemma pathname_drops_query p q :
  string_forall plain_path_char p = true ->
  Url.pathname (Url.parse ("https://10.1.1.40/cws/api" ++ p ++ String "?" q))
  = "/cws/api" ++ p.
Proof.
  intros Hp. unfold Url.parse. cbn -[Url.cut string_forall].
  change (Url.cut "/" _) with ("10.1.1.40", Some (("cws/api" ++ p) ++ String "?" q)).
  cbn -[Url.cut string_forall append].
  rewrite (cut_at "?" ("cws/api" ++ p) q).
  - cbn [fst]. rewrite (cut_absent "#" ("cws/api" ++ p)); [ reflexivity | ].
    rewrite string_forall_app. simpl.
    apply (string_forall_impl _ _ _ plain_is_not_hash Hp).
  - rewrite string_forall_app. simpl.
    apply (string_forall_impl _ _ _ plain_is_not_question Hp).
Qed.

(** X2: for a path made of letters, digits, [/], [-] and [_],
    [makeRequest] asks the hub for [/cws/api] followed by that path, in
    both scripts; and since the request path is [url.pathname], a query
    string appended to such a path is dropped from the request. *)
Theorem makeRequest_path_is_base_plus_path (p q : string)
    (headers : list (string * JValue)) (method : option string) :
  string_forall plain_path_char p = true ->
  path (GetDevices.options p headers) = "/cws/api" ++ p /\
  path (GetAll.options p headers method) = "/cws/api" ++ p /\
  path (GetDevices.options (p ++ String "?" q) headers) = "/cws/api" ++ p /\
  path (GetAll.options (p ++ String "?" q) headers method) = "/cws/api" ++ p.
Proof.
  intros Hp. repeat split.
  - apply (pathname_of_plain p Hp).
  - apply (pathname_of_plain p Hp).
  - apply (pathname_drops_query p q Hp).
  - apply (pathname_drops_query p q Hp).
Qed.

Lemma makeRequest_path_of_scenes_with_query :
  path (GetDevices.options "/scenes" []) = "/cws/api/scenes" /\
  path (GetAll.options "/scenes" [] (Some "POST")) = "/cws/api/scenes" /\
  path (GetDevices.options ("/scenes" ++ String "?" "room=7") []) = "/cws/api/scenes" /\
  path (GetAll.options ("/scenes" ++ String "?" "room=7") [] (Some "POST"))
  = "/cws/api/scenes".
Proof.
  apply (makeRequest_path_is_base_plus_path "/scenes" "room=7" [] (Some "POST")).
  reflexivity.
Defined.

(** ** Every request goes to the hub *)

Section EveryRequest.

Variable env : Env.
Variable P : RequestOptions -> Prop.
Hypothesis P_GetDevices : forall path headers, P (GetDevices.options path headers).
Hypothesis P_GetAll : forall path headers method, P (GetAll.options path headers method).

Lemma GetDevices_makeRequest_only path headers :
  only_issues P (GetDevices.makeRequest env path headers).
Proof. apply only_issues_https_request, P_GetDevices. Qed.

Lemma GetAll_makeRequest_only path headers method :
  only_issues P (GetAll.makeRequest env path headers method).
Proof. apply only_issues_https_request, P_GetAll. Qed.

Lemma GetDevices_main_only : only_issues P (GetDevices.main env).
Proof.
  unfold GetDevices.main, GetDevices.getAuthKey, GetDevices.getSensors.
  step_issues; apply GetDevices_makeRequest_only.
Qed.

Lemma GetDevices_operations_only key :
  only_issues P (GetDevices.getAuthKey env) /\
  only_issues P (GetDevices.getDevices env key) /\
  only_issues P (GetDevices.getSensors env key).
Proof.
  unfold GetDevices.getAuthKey, GetDevices.getDevices, GetDevices.getSensors.
  repeat split; step_issues; apply GetDevices_makeRequest_only.
Qed.

Lemma GetAll_batch_only key :
  Forall (only_issues P) (map (fun f => f key) (GetAll.batch env)).
Proof.
  repeat constructor;
    unfold GetAll.getDevices, GetAll.getSensors, GetAll.getRooms, GetAll.getScenes,
      GetAll.getSecurityDevices, GetAll.getMediaRooms, GetAll.playInLivingRoom;
    step_issues; apply GetAll_makeRequest_only.
Qed.

Lemma GetAll_getAuthKey_only : only_issues P (GetAll.getAuthKey env).
Proof. unfold GetAll.getAuthKey. step_issues. apply GetAll_makeRequest_only. Qed.

Lemma GetAll_main_only : only_issues P (GetAll.main env).
Proof.
  unfold GetAll.main. step_issues.
  - apply GetAll_getAuthKey_only.
  - unfold GetAll.gather. step_issues.
    apply only_issues_spawn_all, GetAll_batch_only.
Qed.

End EveryRequest.

Lemma GetDevices_options_to_the_hub path headers :
  to_the_hub (GetDevices.options path headers).
Proof. split; reflexivity. Qed.

Lemma GetAll_options_to_the_hub path headers method :
  to_the_hub (GetAll.options path headers method).
Proof. split; reflexivity. Qed.

(** X3: whatever path, headers and method it is given, [makeRequest]
    addresses its request to the host [10.1.1.40] on port 443: the path
    argument cannot redirect a request to another host.  So every request
    that any function of either script issues, and every request of a
    whole run, goes to the hub. *)
Theorem every_request_goes_to_the_hub (env : Env) (key : JValue) :
  (forall path headers,
      only_issues to_the_hub (GetDevices.makeRequest env path headers)) /\
  (forall path headers method,
      only_issues to_the_hub (GetAll.makeRequest env path headers method)) /\
  only_issues to_the_hub (GetDevices.getAuthKey env) /\
  only_issues to_the_hub (GetDevices.getDevices env key) /\
  only_issues to_the_hub (GetDevices.getSensors env key) /\
  only_issues to_the_hub (GetAll.getAuthKey env) /\
  Forall (only_issues to_the_hub) (map (fun f => f key) (GetAll.batch env)) /\
  Forall to_the_hub (requests (snd (GetDevices.main env start))) /\
  Forall to_the_hub (requests (snd (GetAll.main env start))).
Proof.
  pose proof GetDevices_options_to_the_hub as HD.
  pose proof GetAll_options_to_the_hub as HA.
  split; [ intros; apply GetDevices_makeRequest_only, HD | ].
  split; [ intros; apply GetAll_makeRequest_only, HA | ].
  split; [ apply (GetDevices_operations_only env _ HD key) | ].
  split; [ apply (GetDevices_operations_only env _ HD key) | ].
  split; [ apply (GetDevices_operations_only env _ HD key) | ].
  split; [ apply (GetAll_getAuthKey_only env _ HA) | ].
  split; [ apply (GetAll_batch_only env _ HA) | ].
  split.
  - apply (GetDevices_main_only env _ HD). constructor.
  - apply (GetAll_main_only env _ HA). constructor.
Qed.

(** ** What a run leaves behind *)

Lemma get_prop_by_null v k :
  get_prop v k =
  if is_null v
  then Throw (TypeError ("Cannot read properties of null (reading '" ++ k ++ "')"))
  else Ok (match v with JObj props => lookup k props | _ => None end).
Proof. destruct v; reflexivity. Qed.


Section MainOutcome.

Variable env : Env.

Lemma GetDevices_main_run w :
  GetDevices.main env w =
  match fst (GetDevices.getAuthKey env w) with
  | Throw _ => (Ok (Exited 1), issue login_GetDevices w)
  | Pending => (Pending, issue login_GetDevices w)
  | Ok key =>
      let w1 := issue_all [login_GetDevices; keyed_GetDevices "/sensors" key] w in
      match fst (GetDevices.getSensors env key (issue login_GetDevices w)) with
      | Throw _ => (Ok (Exited 1), w1)
      | Pending => (Pending, w1)
      | Ok devices =>
          if is_null devices then (Ok (Exited 1), w1)
          else match disk env (filename_GetDevices (clock env (clock_reads w))) with
               | Some _ => (Ok (Exited 1), ticked 1 w1)
               | None => (Ok Returned, saved filename_GetDevices env devices w1)
               end
      end
  end.
Proof.
  unfold GetDevices.main, try_catch, bind.
  rewrite GetDevices_getAuthKey_run. cbn [fst].
  destruct (rethrow _ _) as [key | e | ]; [ | reflexivity | reflexivity ].
  rewrite GetDevices_getSensors_run. cbn [fst].
  assert (Hw : issue (keyed_GetDevices "/sensors" key) (issue login_GetDevices w)
               = issue_all [login_GetDevices; keyed_GetDevices "/sensors" key] w).
  { unfold issue, issue_all. simpl. rewrite <- app_assoc. reflexivity. }
  rewrite Hw. clear Hw.
  destruct (rethrow _ _) as [devices | e | ]; [ | reflexivity | reflexivity ].
  unfold lift. rewrite get_prop_by_null.
  destruct (is_null devices); [ reflexivity | ].
  unfold writeFileSync, Date_toISOString. cbn.
  fold (filename_GetDevices (clock env (clock_reads w))).
  destruct (disk env _); reflexivity.
Qed.

Lemma GetAll_main_run w :
  GetAll.main env w =
  match fst (GetAll.getAuthKey env w) with
  | Throw _ => (Ok (Exited 1), issue login_GetAll w)
  | Pending => (Pending, issue login_GetAll w)
  | Ok key =>
      let w1 := issue_all (login_GetAll :: batch_requests key) w in
      match Promise_all (completion env) (dispatched env key (issue login_GetAll w)) with
      | Throw _ => (Ok (Exited 1), w1)
      | Pending => (Pending, w1)
      | Ok [devices; sensors; rooms; scenes; securityDevices; mediaRooms; playAction] =>
          if is_null devices || is_null sensors || is_null rooms || is_null scenes
          then (Ok (Exited 1), ticked 1 w1)
          else match disk env (filename_GetAll (clock env (S (clock_reads w)))) with
               | Some _ => (Ok (Exited 1), ticked 2 w1)
               | None =>
                   (Ok Returned,
                    saved filename_GetAll env
                      (GetAll.allData devices sensors rooms scenes securityDevices
                         mediaRooms playAction (clock env (clock_reads w)))
                      (ticked 1 w1))
               end
      | Ok _ => (Ok (Exited 1), w1)
      end
  end.
Proof.
  unfold GetAll.main, try_catch, bind.
  rewrite GetAll_getAuthKey_run. cbn [fst].
  destruct (rethrow _ _) as [key | e | ]; [ | reflexivity | reflexivity ].
  rewrite gather_run, issue_issue_all.
  destruct (Promise_all _ _) as [results | e | ]; [ | reflexivity | reflexivity ].
  repeat (destruct results as [ | ? results]; try reflexivity).
  unfold lift. rewrite !get_prop_by_null.
  repeat match goal with
         | |- context [is_null ?v] => destruct (is_null v)
         end; try reflexivity.
  unfold writeFileSync, Date_toISOString. cbn.
  fold (filename_GetAll (clock env (S (clock_reads w)))).
  destruct (disk env _); reflexivity.
Qed.

End MainOutcome.

Lemma no_rejection_all_fulfilled {A} (ps : list (Result A)) :
  existsb is_rejected ps = false -> existsb is_pending ps = false ->
  ps = map Ok (fulfilled ps).
Proof.
  induction ps as [ | [a | e | ] ps IH]; simpl; intros Hr Hp.
  - reflexivity.
  - f_equal. apply IH; assumption.
  - discriminate.
  - discriminate.
Qed.

Lemma Promise_all_ok_iff {A} order (ps : list (Result A)) vs :
  Promise_all order ps = Ok vs <-> ps = map Ok vs.
Proof.
  split.
  - intros Hok. destruct (existsb is_rejected ps) eqn:Hex.
    + destruct (Promise_all_rejects order ps Hex) as (e & _ & He). congruence.
    + destruct (existsb is_pending ps) eqn:Hpe.
      * unfold Promise_all in Hok. rewrite Hpe in Hok.
        destruct (first_rejection _ ps); discriminate.
      * rewrite (no_rejection_all_fulfilled ps Hex Hpe) in *.
        rewrite Promise_all_fulfils in Hok. congruence.
  - intros ->. apply Promise_all_fulfils.
Qed.

Lemma first_rejection_none_without_rejection {A} order (ps : list (Result A)) :
  existsb is_rejected ps = false -> first_rejection order ps = None.
Proof.
  intros Hex. destruct (first_rejection order ps) as [e | ] eqn:He; [ | reflexivity ].
  apply first_rejection_is_rejected in He.
  assert (Hsome : existsb is_rejected ps = true)
    by (apply existsb_exists; exists (Throw e); auto).
  congruence.
Qed.

(** [Promise.all] stays pending exactly when no promise rejects and some
    promise never settles. *)
Lemma Promise_all_pending_iff {A} order (ps : list (Result A)) :
  Promise_all order ps = Pending <->
  existsb is_rejected ps = false /\ existsb is_pending ps = true.
Proof.
  split.
  - intros Hp. destruct (existsb is_rejected ps) eqn:Hex.
    + destruct (Promise_all_rejects order ps Hex) as (e & _ & He). congruence.
    + split; [ reflexivity | ].
      unfold Promise_all in Hp. rewrite first_rejection_none_without_rejection in Hp
        by exact Hex.
      destruct (existsb is_pending ps); [ reflexivity | discriminate ].
  - intros [Hex Hpe]. unfold Promise_all.
    rewrite first_rejection_none_without_rejection by exact Hex.
    rewrite Hpe. reflexivity.
Qed.




Example GetDevices_main_file_on_healthy_hub :
  files (snd (GetDevices.main Mock.healthy start))
  = [("devices-2025-01-01T00-00-00-000Z.json", JObj [("devices", JArr [])])].
Proof. reflexivity. Qed.

(** A sensors answer that is the JSON document [null] ends the run with
    status 1 although both requests succeeded. *)
Example GetDevices_main_on_null :
  GetDevices.main
    (Mock.hub (fun p => if String.eqb p "/cws/api/login"
                        then Response 200 (Json Mock.session_K1)
                        else Response 200 (Json JNull)) []) start
  = (Ok (Exited 1),
     issue_all [login_GetDevices; keyed_GetDevices "/sensors" (JStr "K1")] start).
Proof. reflexivity. Qed.

(** A sensors request that is never answered leaves the run pending,
    and a disk that refuses the write ends it with status 1. *)
Example GetDevices_main_without_answer :
  GetDevices.main
    (Mock.hub (fun p => if String.eqb p "/cws/api/login"
                        then Response 200 (Json Mock.session_K1)
                        else NoAnswer) []) start
  = (Pending,
     issue_all [login_GetDevices; keyed_GetDevices "/sensors" (JStr "K1")] start).
Proof. reflexivity. Qed.

Example GetDevices_main_on_full_disk :
  GetDevices.main
    (mkEnv (transport Mock.healthy) (clock Mock.healthy) []
           (fun _ => Some (Error "ENOSPC: no space left on device, write"))) start
  = (Ok (Exited 1),
     ticked 1 (issue_all [login_GetDevices; keyed_GetDevices "/sensors" (JStr "K1")] start)).
Proof. reflexivity. Qed.

(** The text written for a number that is not finite is [null]. *)
Example as_written_infinity :
  as_written (JObj [("level", JNum (S754_infinity false)); ("name", JStr "Porch")])
  = JObj [("level", JNull); ("name", JStr "Porch")].
Proof. reflexivity. Qed.





(** A [null] from the media rooms endpoint is saved like any other
    document; a [null] from the rooms endpoint ends the run with status 1
    after all eight requests, with nothing written; a media rooms request
    that is never answered leaves the run pending. *)
Example GetAll_main_null_media_rooms :
  fst (GetAll.main
         (Mock.hub (fun p => if String.eqb p "/cws/api/login"
                             then Response 200 (Json Mock.session_K1)
                             else if String.eqb p "/cws/api/mediarooms"
                                  then Response 200 (Json JNull)
                                  else Response 200 (Json (JObj []))) []) start)
  = Ok Returned.
Proof. reflexivity. Qed.

Example GetAll_main_null_rooms :
  GetAll.main
    (Mock.hub (fun p => if String.eqb p "/cws/api/login"
                        then Response 200 (Json Mock.session_K1)
                        else if String.eqb p "/cws/api/rooms"
                             then Response 200 (Json JNull)
                             else Response 200 (Json (JObj []))) []) start
  = (Ok (Exited 1),
     ticked 1 (issue_all (login_GetAll :: batch_requests (JStr "K1")) start)).
Proof. reflexivity. Qed.

Example GetAll_main_without_answer :
  GetAll.main
    (Mock.hub (fun p => if String.eqb p "/cws/api/login"
                        then Response 200 (Json Mock.session_K1)
                        else if String.eqb p "/cws/api/mediarooms"
                             then NoAnswer
                             else Response 200 (Json (JObj []))) []) start
  = (Pending, issue_all (login_GetAll :: batch_requests (JStr "K1")) start).
Proof. reflexivity. Qed.

(** ** The batch, result by result *)

Lemma Promise_all_same_outcome {A} order order' (ps : list (Result A)) :
  match Promise_all order ps, Promise_all order' ps with
  | Ok vs, Ok vs' => vs = vs'
  | Throw _, Throw _ => True
  | Pending, Pending => True
  | _, _ => False
  end.
Proof.
  destruct (existsb is_rejected ps) eqn:Hex.
  - destruct (Promise_all_rejects order ps Hex) as (e & _ & ->).
    destruct (Promise_all_rejects order' ps Hex) as (e' & _ & ->).
    exact I.
  - destruct (existsb is_pending ps) eqn:Hpe.
    + rewrite (proj2 (Promise_all_pending_iff order ps) (conj Hex Hpe)).
      rewrite (proj2 (Promise_all_pending_iff order' ps) (conj Hex Hpe)).
      exact I.
    + rewrite (no_rejection_all_fulfilled ps Hex Hpe), !Promise_all_fulfils.
      reflexivity.
Qed.

(** X6: what a run of the second script does (the status with which it
    ends, the requests it issues, the file it writes, the readings of the
    clock) does not depend on the order in which the requests of the
    batch complete.  Only the error that is reported on the console can
    differ. *)
Theorem GetAll_main_ignores_completion_order (env : Env) (order : list nat) (w : World) :
  GetAll.main (with_completion order env) w = GetAll.main env w.
Proof.
  rewrite !GetAll_main_run.
  change (fst (GetAll.getAuthKey (with_completion order env) w))
    with (fst (GetAll.getAuthKey env w)).
  destruct (fst (GetAll.getAuthKey env w)) as [key | e | ];
    [ | reflexivity | reflexivity ].
  cbn zeta. rewrite dispatched_with_completion.
  change (completion (with_completion order env)) with order.
  pose proof (Promise_all_same_outcome order (completion env)
                (dispatched env key (issue login_GetAll w))) as Hsame.
  destruct (Promise_all order _) as [vs | e | ],
           (Promise_all (completion env) _) as [vs' | e' | ];
    try contradiction; [ subst vs'; reflexivity | reflexivity | reflexivity ].
Qed.

Lemma spawn_all_settles (env : Env) (tasks : list (M JValue))
    (specs : list (string * RequestOptions)) :
  Forall2 (fun t spec =>
             forall w, t w = (rethrow (fst spec) (settle (transport env (requests w) (snd spec))),
                              issue (snd spec) w))
          tasks specs ->
  forall w, fst (GetAll.spawn_all tasks w) = Ok (settle_in_turn env (requests w) specs).
Proof.
  induction 1 as [ | t [prefix o] tasks specs Ht _ IH]; intros w; simpl.
  - reflexivity.
  - unfold bind, spawn. rewrite Ht. simpl fst. simpl snd.
    specialize (IH (issue o w)).
    destruct (GetAll.spawn_all tasks (issue o w)) as [rs w']. simpl in IH. subst rs.
    reflexivity.
Qed.

Lemma batch_runs_its_specs (env : Env) key :
  Forall2 (fun t spec =>
             forall w, t w = (rethrow (fst spec) (settle (transport env (requests w) (snd spec))),
                              issue (snd spec) w))
          (map (fun f => f key) (GetAll.batch env)) (batch_specs key).
Proof. repeat constructor; intros w; cbn [fst snd]; run_keyed. Qed.

Lemma settle_in_turn_all_json env specs :
  forall history,
    (forall h o, In o (map snd specs) ->
                 exists status v, transport env h o = Response status (Json v)) ->
    exists vs, settle_in_turn env history specs = map Ok vs.
Proof.
  induction specs as [ | [prefix o] specs IH]; intros history Hjson; simpl.
  - exists []. reflexivity.
  - destruct (Hjson history o) as (status & v & ->); [ simpl; auto | ].
    destruct (IH (history ++ [o])%list) as (vs & ->).
    + intros h o' Hin. apply Hjson. simpl. auto.
    + exists (v :: vs). reflexivity.
Qed.

(** X7: the seven results of the batch, one by one: each request is
    answered by the transport with the requests issued before it (those
    of the batch included) as history, a JSON body is the result as it
    is, and a failure is wrapped under the prefix of its function (the
    media command reports under [Failed to get media rooms: ] like the
    media rooms read).  So when the hub answers each of the seven requests
    with a JSON body, whatever the status codes, the batch succeeds with
    seven documents for every completion order. *)
Theorem batch_settles_request_by_request (env : Env) (key : JValue) (w : World) :
  dispatched env key w = settle_in_turn env (requests w) (batch_specs key) /\
  ((forall history o,
       In o (batch_requests key) ->
       exists status v, transport env history o = Response status (Json v)) ->
   exists vs,
     List.length vs = 7%nat /\
     forall order, fst (GetAll.gather (with_completion order env) key w) = Ok vs).
Proof.
  assert (Hturn : dispatched env key w = settle_in_turn env (requests w) (batch_specs key)).
  { unfold dispatched.
    rewrite (spawn_all_settles env _ _ (batch_runs_its_specs env key) w).
    reflexivity. }
  split; [ exact Hturn | ].
  intros Hjson.
  destruct (settle_in_turn_all_json env (batch_specs key) (requests w)) as (vs & Hvs).
  { intros h o Hin. apply Hjson. exact Hin. }
  exists vs. split.
  - pose proof (proj2 (spawn_batch_run env key w)) as Hlen.
    rewrite Hturn, Hvs, length_map in Hlen. exact Hlen.
  - intros order. rewrite gather_run. cbn [fst].
    rewrite dispatched_with_completion, Hturn, Hvs. apply Promise_all_fulfils.
Qed.

Lemma batch_on_a_hub_that_answers_500 :
  exists vs,
    List.length vs = 7%nat /\
    forall order,
      fst (GetAll.gather
             (with_completion order (Mock.hub (fun _ => Response 500 (Json (JObj []))) []))
             (JStr "K1") start) = Ok vs.
Proof.
  apply (batch_settles_request_by_request
           (Mock.hub (fun _ => Response 500 (Json (JObj []))) []) (JStr "K1") start).
  intros history o _. exists 500%Z, (JObj []). reflexivity.
Defined.

(** X8: the batch succeeds with the values [vs] if and only if each of
    its seven requests succeeded, with [vs] in the order of the array;
    and when exactly one request fails, the batch fails with the error
    of that request whatever the completion order. *)
Theorem gather_succeeds_iff_all_succeed (env : Env) (key : JValue) (w : World) :
  (forall vs,
      fst (GetAll.gather env key w) = Ok vs <-> dispatched env key w = map Ok vs) /\
  (forall i e,
      nth_error (dispatched env key w) i = Some (Throw e) ->
      (forall j e', nth_error (dispatched env key w) j = Some (Throw e') -> j = i) ->
      forall order,
        fst (GetAll.gather (with_completion order env) key w) = Throw e).
Proof.
  split.
  - intros vs. rewrite gather_run. cbn [fst]. apply Promise_all_ok_iff.
  - intros i e Hi Honly order. rewrite gather_run. cbn [fst].
    rewrite dispatched_with_completion.
    change (completion (with_completion order env)) with order.
    destruct (Promise_all_rejects order (dispatched env key w)) as (e' & Hin & ->).
    + apply existsb_exists. exists (Throw e). split; [ | reflexivity ].
      eapply nth_error_In, Hi.
    + apply In_nth_error in Hin as (j & Hj).
      rewrite (Honly j e' Hj) in Hj. congruence.
Qed.

Lemma gather_with_rooms_down_in_two_orders :
  fst (GetAll.gather (with_completion [0; 1; 2; 3; 4; 5; 6]%nat Mock.rooms_down)
         (JStr "K1") start)
  = Throw (Error "Failed to get rooms: connect ECONNREFUSED 10.1.1.40:443") /\
  fst (GetAll.gather (with_completion [2; 6; 0]%nat Mock.rooms_down) (JStr "K1") start)
  = Throw (Error "Failed to get rooms: connect ECONNREFUSED 10.1.1.40:443").
Proof.
  destruct (gather_succeeds_iff_all_succeed Mock.rooms_down (JStr "K1") start)
    as (_ & Hone).
  assert (Honly : forall j e',
             nth_error (dispatched Mock.rooms_down (JStr "K1") start) j = Some (Throw e') ->
             j = 2%nat).
  { intros j e' Hj.
    do 7 (destruct j as [ | j]; [ first [ reflexivity | discriminate ] | ]).
    destruct j; discriminate. }
  split; apply (Hone 2%nat); try reflexivity; exact Honly.
Defined.

(** ** What the runs ask of the hub *)

(** X9: a run of [get-devices.js] asks the hub for the login and, when
    the login yields a key, for the sensors, both with [GET], and for
    nothing else: despite its name it never requests [/devices]. *)
Theorem GetDevices_main_requests_login_then_sensors (env : Env) :
  map method_and_path (requests (snd (GetDevices.main env start)))
  = ("GET", "/cws/api/login") ::
    match fst (GetDevices.getAuthKey env start) with
    | Ok _ => [("GET", "/cws/api/sensors")]
    | _ => []
    end /\
  attempts "/cws/api/devices" (snd (GetDevices.main env start)) = 0%nat.
Proof.
  unfold attempts. rewrite GetDevices_main_requests.
  destruct (fst (GetDevices.getAuthKey env start)); split; reflexivity.
Qed.

(** X10: a run of the second script asks for the login and, when the
    login yields a key, for the six lists with [GET] and then, always,
    for the selection of source 53750 in media room 1006 with [POST]:
    every run that logs in also sends that command, and it is the only
    request that is not a [GET].  When the login fails nothing but the
    login is requested. *)
Theorem GetAll_main_requests_six_reads_and_the_command (env : Env) :
  map method_and_path (requests (snd (GetAll.main env start)))
  = ("GET", "/cws/api/login") ::
    match fst (GetAll.getAuthKey env start) with
    | Ok _ =>
        [("GET", "/cws/api/devices"); ("GET", "/cws/api/sensors");
         ("GET", "/cws/api/rooms"); ("GET", "/cws/api/scenes");
         ("GET", "/cws/api/securitydevices"); ("GET", "/cws/api/mediarooms");
         ("POST", "/cws/api/mediarooms/1006/selectsource/53750")]
    | _ => []
    end.
Proof.
  rewrite GetAll_main_requests.
  destruct (fst (GetAll.getAuthKey env start)); reflexivity.
Qed.

(** ** File names, again *)

Lemma not_colon_or_dot_not_colon c :
  negb (is_colon_or_dot c) = true -> negb (Ascii.eqb c ":") = true.
Proof.
  unfold is_colon_or_dot. destruct (Ascii.eqb c ":"); simpl; auto.
Qed.

Lemma filenames_have_no_colon now :
  has_no_colon (filename_GetDevices now) = true /\
  has_no_colon (filename_GetAll now) = true.
Proof.
  unfold has_no_colon, filename_GetDevices, filename_GetAll.
  rewrite !string_forall_app.
  rewrite (string_forall_impl _ _ _ not_colon_or_dot_not_colon
             (replace_colon_dot_clean now)).
  split; reflexivity.
Qed.

Lemma GetDevices_main_files env w :
  files (snd (GetDevices.main env w)) = files w \/
  exists v,
    files (snd (GetDevices.main env w))
    = (files w ++ [(filename_GetDevices (clock env (clock_reads w)), v)])%list.
Proof.
  rewrite GetDevices_main_run.
  destruct (fst (GetDevices.getAuthKey env w)) as [key | e | ];
    [ | left; reflexivity | left; reflexivity ].
  cbn zeta.
  destruct (fst (GetDevices.getSensors _ _ _)) as [d | e | ];
    [ | left; reflexivity | left; reflexivity ].
  destruct (is_null d); [ left; reflexivity | ].
  destruct (disk env _); [ left; reflexivity | right ].
  eexists. reflexivity.
Qed.

Lemma GetAll_main_files env w :
  files (snd (GetAll.main env w)) = files w \/
  exists v,
    files (snd (GetAll.main env w))
    = (files w ++ [(filename_GetAll (clock env (S (clock_reads w))), v)])%list.
Proof.
  rewrite GetAll_main_run.
  destruct (fst (GetAll.getAuthKey env w)) as [key | e | ];
    [ | left; reflexivity | left; reflexivity ].
  cbn zeta.
  destruct (Promise_all _ _) as [results | e | ];
    [ | left; reflexivity | left; reflexivity ].
  do 7 (destruct results as [ | ? results]; [ left; reflexivity | ]).
  destruct results; [ | left; reflexivity ].
  destruct (_ || _); [ left; reflexivity | ].
  destruct (disk env _); [ left; reflexivity | right ].
  eexists. reflexivity.
Qed.

(** X11: whatever the clock returns, a run of either script writes at
    most one file, and the name of that file has no colon in it. *)
Theorem written_files_have_no_colon (env : Env) :
  Forall (fun f => has_no_colon (fst f) = true)
         (files (snd (GetDevices.main env start))) /\
  Forall (fun f => has_no_colon (fst f) = true)
         (files (snd (GetAll.main env start))) /\
  (List.length (files (snd (GetDevices.main env start))) <= 1)%nat /\
  (List.length (files (snd (GetAll.main env start))) <= 1)%nat.
Proof.
  destruct (GetDevices_main_files env start) as [-> | (v & ->)];
    destruct (GetAll_main_files env start) as [-> | (v' & ->)];
    simpl; repeat split; auto; repeat constructor; apply filenames_have_no_colon.
Qed.
